(** * PS/2 GPIO bit-banging driver (drivers/ps2/ps2_gpio.c)

    A shallow embedding of the driver's protocol state machine: the frame
    codec (parity), the receive and transmit interrupt handlers, the
    mode dispatcher, the asynchronous and blocking write entry points and
    the delivery of received bytes to the callback or the FIFO.

    The single [static struct ps2_gpio_data] instance is a record that every
    function receives and returns.  What the driver does to its collaborators
    (GPIO calls, semaphore releases, callback invocations, FIFO puts) is
    appended to a ghost field [effects], oldest effect first.  What the
    collaborators answer (pin levels, return codes of [gpio_pin_configure])
    comes from a [gpio_env] given to each call. *)

From Stdlib Require Import ZArith List Bool Lia.
Import ListNotations.
Open Scope Z_scope.

(** ** Constants *)

Definition PS2_GPIO_POS_START : Z := 0.
Definition PS2_GPIO_POS_PARITY : Z := 9.
Definition PS2_GPIO_POS_STOP : Z := 10.
Definition PS2_GPIO_POS_ACK : Z := 11.

(** errno.h is not part of the driver file; these are the values of the
    kernel's errno.h.  Only [EBUSY] is compared against by the driver. *)
Definition EBUSY : Z := 16.
Definition EAGAIN : Z := 11.
Definition EINVAL : Z := 22.

(** The command byte of [ps2_gpio_send_cmd_resend]. *)
Definition PS2_CMD_RESEND : Z := 0xfe.

(** ** Machine integers *)

(** An [int] result, wrapped to 32 bits two's complement. *)
Definition to_int (z : Z) : Z := (z + 2 ^ 31) mod 2 ^ 32 - 2 ^ 31.

(** Assignment to a [uint8_t] or [uint16_t] lvalue keeps the low bits. *)
Definition to_uint8 (z : Z) : Z := Z.land z 0xff.
Definition to_uint16 (z : Z) : Z := Z.land z 0xffff.

(** [#define PS2_GPIO_GET_BIT(data, bit_pos) ( (data >> bit_pos) & 0x1 )] *)
Definition PS2_GPIO_GET_BIT (data bit_pos : Z) : Z :=
  Z.land (Z.shiftr data bit_pos) 1.

(** [#define PS2_GPIO_SET_BIT(data, bit_val, bit_pos) ( data |= (bit_val) << bit_pos )]
    The macro assigns; the result is the new value of [data] before it is
    narrowed to the type of the lvalue. *)
Definition PS2_GPIO_SET_BIT (data bit_val bit_pos : Z) : Z :=
  Z.lor data (Z.shiftl bit_val bit_pos).

(** ** Data model *)

Inductive ps2_gpio_mode : Set :=
| PS2_GPIO_MODE_READ
| PS2_GPIO_MODE_WRITE.

Inductive ps2_gpio_write_status : Set :=
| PS2_GPIO_WRITE_STATUS_INACTIVE
| PS2_GPIO_WRITE_STATUS_ACTIVE
| PS2_GPIO_WRITE_STATUS_SUCCESS
| PS2_GPIO_WRITE_STATUS_FAILURE.

(** The enumerators' integer values, as [-data->cur_write_status] uses them. *)
Definition write_status_value (st : ps2_gpio_write_status) : Z :=
  match st with
  | PS2_GPIO_WRITE_STATUS_INACTIVE => 0
  | PS2_GPIO_WRITE_STATUS_ACTIVE => 1
  | PS2_GPIO_WRITE_STATUS_SUCCESS => 2
  | PS2_GPIO_WRITE_STATUS_FAILURE => 3
  end.

Definition mode_eqb (a b : ps2_gpio_mode) : bool :=
  match a, b with
  | PS2_GPIO_MODE_READ, PS2_GPIO_MODE_READ => true
  | PS2_GPIO_MODE_WRITE, PS2_GPIO_MODE_WRITE => true
  | _, _ => false
  end.

Definition write_status_eqb (a b : ps2_gpio_write_status) : bool :=
  write_status_value a =? write_status_value b.

(** The two physical lines, each a (port, pin) pair of the configuration:
    [SCL] is [(data->scl_gpio, config->scl_pin)], [SDA] is
    [(data->sda_gpio, config->sda_pin)]. *)
Inductive gpio_line : Set := SCL | SDA.

Inductive gpio_flags : Set := GPIO_INPUT | GPIO_OUTPUT_LOW.

(** What the driver does to the outside, in program order. *)
Inductive effect : Set :=
| GpioPinSet (l : gpio_line) (v : Z)
| GpioPinConfigure (l : gpio_line) (f : gpio_flags)
| KSleepUsec (us : Z)
| KSemGive
| CallbackIsr (b : Z)
| KFifoPut (b : Z).

(** What the outside answers during one call. *)
Record gpio_env : Set := mk_env {
  gpio_pin_get : gpio_line -> Z;
  gpio_pin_configure : gpio_line -> gpio_flags -> Z
}.

(** Modelled from the spec: the blocking primitive [struct k_sem] (kernel
    code, not in the driver file), "binary-semaphore semantics (capacity 1)"
    with [gate.try_acquire], [gate.acquire(timeout)] and [gate.release];
    [ps2_gpio_init] creates it with [k_sem_init(&data->write_lock, 0, 1)]. *)
Record k_sem : Set := mk_sem {
  sem_count : nat;
  sem_limit : nat
}.

Definition k_sem_init (initial_count limit : nat) : k_sem :=
  mk_sem initial_count limit.

(** Modelled from the spec: [k_sem_take(sem, K_NO_WAIT)], the non-blocking
    acquire: 0 and the count decremented when a unit is available, [-EBUSY]
    and the semaphore untouched when none is. *)
Definition k_sem_take_no_wait (sem : k_sem) : Z * k_sem :=
  match sem_count sem with
  | O => (- EBUSY, sem)
  | S n => (0, mk_sem n (sem_limit sem))
  end.

(** Modelled from the spec: [k_sem_give(sem)], the release: the count goes
    up by one unless it is at the limit. *)
Definition k_sem_give (sem : k_sem) : k_sem :=
  if (sem_count sem <? sem_limit sem)%nat
  then mk_sem (S (sem_count sem)) (sem_limit sem)
  else sem.

(** What the driver hands to [k_fifo_put]: always [&byte], the address of
    the by-value parameter of [ps2_gpio_process_received_byte].  The
    storage of that parameter ends when the function returns, so an entry
    of the queue carries no byte. *)
Inductive queue_item : Set := ByteParamAddr.

Record ps2_gpio_data : Set := mk_data {
  callback_isr : option nat;        (* NULL or a registered function *)
  callback_enabled : bool;
  data_queue : list queue_item;     (* k_fifo, head first *)
  mode : ps2_gpio_mode;
  cur_read_byte : Z;                (* uint8_t *)
  cur_read_pos : Z;                 (* int *)
  write_buffer : Z;                 (* uint16_t *)
  cur_write_pos : Z;                (* int *)
  cur_write_status : ps2_gpio_write_status;
  write_lock : k_sem;
  effects : list effect             (* ghost: calls made so far *)
}.

(** Field assignments. *)
Definition set_callback_isr v (d : ps2_gpio_data) :=
  mk_data v (callback_enabled d) (data_queue d) (mode d) (cur_read_byte d)
    (cur_read_pos d) (write_buffer d) (cur_write_pos d) (cur_write_status d)
    (write_lock d) (effects d).
Definition set_callback_enabled v (d : ps2_gpio_data) :=
  mk_data (callback_isr d) v (data_queue d) (mode d) (cur_read_byte d)
    (cur_read_pos d) (write_buffer d) (cur_write_pos d) (cur_write_status d)
    (write_lock d) (effects d).
Definition set_data_queue v (d : ps2_gpio_data) :=
  mk_data (callback_isr d) (callback_enabled d) v (mode d) (cur_read_byte d)
    (cur_read_pos d) (write_buffer d) (cur_write_pos d) (cur_write_status d)
    (write_lock d) (effects d).
Definition set_mode v (d : ps2_gpio_data) :=
  mk_data (callback_isr d) (callback_enabled d) (data_queue d) v
    (cur_read_byte d) (cur_read_pos d) (write_buffer d) (cur_write_pos d)
    (cur_write_status d) (write_lock d) (effects d).
Definition set_cur_read_byte v (d : ps2_gpio_data) :=
  mk_data (callback_isr d) (callback_enabled d) (data_queue d) (mode d) v
    (cur_read_pos d) (write_buffer d) (cur_write_pos d) (cur_write_status d)
    (write_lock d) (effects d).
Definition set_cur_read_pos v (d : ps2_gpio_data) :=
  mk_data (callback_isr d) (callback_enabled d) (data_queue d) (mode d)
    (cur_read_byte d) v (write_buffer d) (cur_write_pos d)
    (cur_write_status d) (write_lock d) (effects d).
Definition set_write_buffer v (d : ps2_gpio_data) :=
  mk_data (callback_isr d) (callback_enabled d) (data_queue d) (mode d)
    (cur_read_byte d) (cur_read_pos d) v (cur_write_pos d)
    (cur_write_status d) (write_lock d) (effects d).
Definition set_cur_write_pos v (d : ps2_gpio_data) :=
  mk_data (callback_isr d) (callback_enabled d) (data_queue d) (mode d)
    (cur_read_byte d) (cur_read_pos d) (write_buffer d) v
    (cur_write_status d) (write_lock d) (effects d).
Definition set_cur_write_status v (d : ps2_gpio_data) :=
  mk_data (callback_isr d) (callback_enabled d) (data_queue d) (mode d)
    (cur_read_byte d) (cur_read_pos d) (write_buffer d) (cur_write_pos d) v
    (write_lock d) (effects d).
Definition set_write_lock v (d : ps2_gpio_data) :=
  mk_data (callback_isr d) (callback_enabled d) (data_queue d) (mode d)
    (cur_read_byte d) (cur_read_pos d) (write_buffer d) (cur_write_pos d)
    (cur_write_status d) v (effects d).
Definition emit (e : effect) (d : ps2_gpio_data) :=
  mk_data (callback_isr d) (callback_enabled d) (data_queue d) (mode d)
    (cur_read_byte d) (cur_read_pos d) (write_buffer d) (cur_write_pos d)
    (cur_write_status d) (write_lock d) (effects d ++ [e]).

(** The static initialiser of [ps2_gpio_data], with the FIFO and the
    semaphore as [ps2_gpio_init] leaves them. *)
Definition ps2_gpio_data_init : ps2_gpio_data :=
  mk_data None false [] PS2_GPIO_MODE_READ 0 0 0 0
    PS2_GPIO_WRITE_STATUS_INACTIVE (k_sem_init 0 1) [].

(** ** Frame codec *)

(** GCC's [__builtin_parity(unsigned int x)]: the number of 1-bits of [x]
    modulo 2, here the exclusive or of the 32 bits. *)
Fixpoint xor_bits (n : nat) (x : Z) : bool :=
  match n with
  | O => false
  | S k => xorb (Z.testbit x (Z.of_nat k)) (xor_bits k x)
  end.

Definition builtin_parity (x : Z) : Z := Z.b2z (xor_bits 32 x).

(** [bool ps2_gpio_get_byte_parity(uint8_t byte)] *)
Definition ps2_gpio_get_byte_parity (byte : Z) : bool :=
  let byte_parity := builtin_parity byte in
  (* return !byte_parity; *)
  byte_parity =? 0.

(** [bool ps2_gpio_check_parity(uint8_t byte, int parity_bit_val)] *)
Definition ps2_gpio_check_parity (byte parity_bit_val : Z) : bool :=
  let byte_parity := builtin_parity byte in
  if byte_parity =? parity_bit_val
  then false   (* Do not match *)
  else true.   (* Match *)

(** The number of set bits among the eight bits of a byte. *)
Fixpoint popcount (n : nat) (x : Z) : nat :=
  match n with
  | O => O
  | S k => ((if Z.testbit x (Z.of_nat k) then 1 else 0) + popcount k x)%nat
  end.

(** ** Helper functions *)

(** [int ps2_gpio_get_scl()] and [int ps2_gpio_get_sda()] *)
Definition ps2_gpio_get_scl (env : gpio_env) : Z := gpio_pin_get env SCL.
Definition ps2_gpio_get_sda (env : gpio_env) : Z := gpio_pin_get env SDA.

(** [void ps2_gpio_set_scl(int state)]: the body is
    [gpio_pin_set(data->sda_gpio, config->sda_pin, state)]. *)
Definition ps2_gpio_set_scl (state : Z) (d : ps2_gpio_data) : ps2_gpio_data :=
  emit (GpioPinSet SDA state) d.

(** [void ps2_gpio_set_sda(int state)]: the body is
    [gpio_pin_set(data->scl_gpio, config->scl_pin, state)]. *)
Definition ps2_gpio_set_sda (state : Z) (d : ps2_gpio_data) : ps2_gpio_data :=
  emit (GpioPinSet SCL state) d.

(** A call of [gpio_pin_configure(port, pin, flags)]: the call is recorded
    and the environment gives its return code. *)
Definition call_gpio_pin_configure (env : gpio_env) (l : gpio_line)
    (f : gpio_flags) (d : ps2_gpio_data) : Z * ps2_gpio_data :=
  (gpio_pin_configure env l f, emit (GpioPinConfigure l f) d).

(** Modelled from the spec: the byte-delivery queue [struct k_fifo] (kernel
    code, not in the driver file), "an ordered queue of completed received
    bytes".  The driver calls [k_fifo_put(&data->data_queue, &byte)]: the
    entry appended is the address of the parameter, not the byte; the
    effect records the call and the value the parameter holds at it. *)
Definition k_fifo_put (byte : Z) (d : ps2_gpio_data) : ps2_gpio_data :=
  emit (KFifoPut byte) (set_data_queue (data_queue d ++ [ByteParamAddr]) d).

(** [while(k_fifo_get(&data->data_queue, K_NO_WAIT) != NULL) { }]: each
    successful get removes the head; the loop ends at the first NULL. *)
Fixpoint empty_data_queue_loop (q : list queue_item) : list queue_item :=
  match q with
  | [] => []
  | _ :: q' => empty_data_queue_loop q'
  end.

(** [void ps2_gpio_empty_data_queue()] *)
Definition ps2_gpio_empty_data_queue (d : ps2_gpio_data) : ps2_gpio_data :=
  set_data_queue (empty_data_queue_loop (data_queue d)) d.

(** ** Writing *)

(** The eleven [PS2_GPIO_SET_BIT] statements of [ps2_gpio_write_byte_async]
    on the [uint16_t] buffer, starting from [write_buffer = 0x0]. *)
Definition pack_write_buffer (byte : Z) (byte_parity : bool) : Z :=
  let wb := 0 in
  let wb := to_uint16 (PS2_GPIO_SET_BIT wb 0 0) in
  let wb := to_uint16 (PS2_GPIO_SET_BIT wb (PS2_GPIO_GET_BIT byte 0) 1) in
  let wb := to_uint16 (PS2_GPIO_SET_BIT wb (PS2_GPIO_GET_BIT byte 1) 2) in
  let wb := to_uint16 (PS2_GPIO_SET_BIT wb (PS2_GPIO_GET_BIT byte 2) 3) in
  let wb := to_uint16 (PS2_GPIO_SET_BIT wb (PS2_GPIO_GET_BIT byte 3) 4) in
  let wb := to_uint16 (PS2_GPIO_SET_BIT wb (PS2_GPIO_GET_BIT byte 4) 5) in
  let wb := to_uint16 (PS2_GPIO_SET_BIT wb (PS2_GPIO_GET_BIT byte 5) 6) in
  let wb := to_uint16 (PS2_GPIO_SET_BIT wb (PS2_GPIO_GET_BIT byte 6) 7) in
  let wb := to_uint16 (PS2_GPIO_SET_BIT wb (PS2_GPIO_GET_BIT byte 7) 8) in
  let wb := to_uint16 (PS2_GPIO_SET_BIT wb (Z.b2z byte_parity) 9) in
  let wb := to_uint16 (PS2_GPIO_SET_BIT wb 1 10) in
  wb.

(** [int ps2_gpio_write_byte_async(uint8_t byte)]: the return code and the
    state it leaves. *)
Definition ps2_gpio_write_byte_async (env : gpio_env) (byte : Z)
    (d : ps2_gpio_data) : Z * ps2_gpio_data :=
  (* err = k_sem_take(&data->write_lock, K_NO_WAIT); *)
  let (err, sem) := k_sem_take_no_wait (write_lock d) in
  let d := set_write_lock sem d in
  if negb (err =? 0) && negb (err =? - EBUSY) then (err, d) else
  let byte_parity := ps2_gpio_get_byte_parity byte in
  let d := set_write_buffer (pack_write_buffer byte byte_parity) d in
  let d := set_mode PS2_GPIO_MODE_WRITE d in
  let d := set_cur_write_pos PS2_GPIO_POS_START d in
  let (err, d) := call_gpio_pin_configure env SCL GPIO_OUTPUT_LOW d in
  if negb (err =? 0) then (err, d) else
  let d := emit (KSleepUsec 100) d in
  let d := set_cur_write_status PS2_GPIO_WRITE_STATUS_ACTIVE d in
  let d := set_cur_read_byte 0 d in
  let d := set_cur_read_pos PS2_GPIO_POS_START d in
  let (err, d) := call_gpio_pin_configure env SDA GPIO_OUTPUT_LOW d in
  if negb (err =? 0) then (err, d) else
  let d := set_cur_write_pos (to_int (cur_write_pos d + 1)) d in
  let d := ps2_gpio_set_scl 1 d in
  let (err, d) := call_gpio_pin_configure env SCL GPIO_INPUT d in
  if negb (err =? 0) then (err, d) else
  (0, d).

(** [void ps2_gpio_send_cmd_resend()]: the return code is dropped. *)
Definition ps2_gpio_send_cmd_resend (env : gpio_env) (d : ps2_gpio_data)
    : ps2_gpio_data :=
  let cmd := PS2_CMD_RESEND in
  snd (ps2_gpio_write_byte_async env cmd d).

(** [void ps2_gpio_scl_interrupt_handler_write_send_bit()] *)
Definition ps2_gpio_scl_interrupt_handler_write_send_bit (d : ps2_gpio_data)
    : ps2_gpio_data :=
  let data_bit := PS2_GPIO_GET_BIT (write_buffer d) (cur_write_pos d) in
  ps2_gpio_set_sda data_bit d.

(** [void ps2_gpio_scl_interrupt_handler_write_check_ack()] *)
Definition ps2_gpio_scl_interrupt_handler_write_check_ack (env : gpio_env)
    (d : ps2_gpio_data) : ps2_gpio_data :=
  let ack_val := ps2_gpio_get_sda env in
  let d :=
    if ack_val =? 0
    then set_cur_write_status PS2_GPIO_WRITE_STATUS_SUCCESS d
    else set_cur_write_status PS2_GPIO_WRITE_STATUS_FAILURE d in
  let d := set_mode PS2_GPIO_MODE_READ d in
  let d := set_write_buffer 0 d in
  let d := set_cur_write_pos PS2_GPIO_POS_START d in
  emit KSemGive (set_write_lock (k_sem_give (write_lock d)) d).

(** [void ps2_gpio_scl_interrupt_handler_write()] *)
Definition ps2_gpio_scl_interrupt_handler_write (env : gpio_env)
    (d : ps2_gpio_data) : ps2_gpio_data :=
  if cur_write_pos d =? PS2_GPIO_POS_START then
    d   (* return; *)
  else
    let d :=
      if cur_write_pos d =? PS2_GPIO_POS_STOP then
        let d := ps2_gpio_scl_interrupt_handler_write_send_bit d in
        (* the return code is only logged *)
        snd (call_gpio_pin_configure env SDA GPIO_INPUT d)
      else if cur_write_pos d =? PS2_GPIO_POS_ACK then
        ps2_gpio_scl_interrupt_handler_write_check_ack env d
      else
        ps2_gpio_scl_interrupt_handler_write_send_bit d in
    set_cur_write_pos (to_int (cur_write_pos d + 1)) d.

(** ** Reading *)

(** [void ps2_gpio_abort_read()] *)
Definition ps2_gpio_abort_read (env : gpio_env) (d : ps2_gpio_data)
    : ps2_gpio_data :=
  let d := ps2_gpio_send_cmd_resend env d in
  let d := set_cur_read_pos PS2_GPIO_POS_START d in
  set_cur_read_byte 0 d.

(** [void ps2_gpio_process_received_byte(uint8_t byte)] *)
Definition ps2_gpio_process_received_byte (byte : Z) (d : ps2_gpio_data)
    : ps2_gpio_data :=
  if (match callback_isr d with Some _ => true | None => false end)
     && callback_enabled d
  then emit (CallbackIsr byte) d
  else k_fifo_put byte d.

(** [void ps2_gpio_scl_interrupt_handler_read()] *)
Definition ps2_gpio_scl_interrupt_handler_read (env : gpio_env)
    (d : ps2_gpio_data) : ps2_gpio_data :=
  let sda_val := ps2_gpio_get_sda env in
  let next d := set_cur_read_pos (to_int (cur_read_pos d + 1)) d in
  if cur_read_pos d =? PS2_GPIO_POS_START then
    if negb (sda_val =? 0) then ps2_gpio_abort_read env d
    else next d
  else if cur_read_pos d =? PS2_GPIO_POS_PARITY then
    if negb (ps2_gpio_check_parity (cur_read_byte d) sda_val)
    then ps2_gpio_abort_read env d
    else next d
  else if cur_read_pos d =? PS2_GPIO_POS_STOP then
    if negb (sda_val =? 1) then ps2_gpio_abort_read env d
    else
      let d := ps2_gpio_process_received_byte (cur_read_byte d) d in
      let d := set_cur_read_pos PS2_GPIO_POS_START d in
      set_cur_read_byte 0 d
  else
    let bit_pos := to_int (cur_read_pos d - 1) in
    let d :=
      set_cur_read_byte
        (to_uint8 (PS2_GPIO_SET_BIT (cur_read_byte d) sda_val bit_pos)) d in
    next d.

(** ** Interrupt handler *)

(** [void ps2_gpio_scl_interrupt_handler(dev, cb, pins)] *)
Definition ps2_gpio_scl_interrupt_handler (env : gpio_env)
    (d : ps2_gpio_data) : ps2_gpio_data :=
  if mode_eqb (mode d) PS2_GPIO_MODE_READ
  then ps2_gpio_scl_interrupt_handler_read env d
  else ps2_gpio_scl_interrupt_handler_write env d.

(** The handler run on a sequence of clock edges, one environment each. *)
Definition run_edges (h : gpio_env -> ps2_gpio_data -> ps2_gpio_data)
    (edges : list gpio_env) (d : ps2_gpio_data) : ps2_gpio_data :=
  fold_left (fun d env => h env d) edges d.

(** ** Blocking write *)

(** Modelled from the spec: [k_sem_take(&data->write_lock, K_MSEC(500))],
    "waits on write_admission with a bounded timeout".  The caller takes a
    unit as soon as one is available; while it waits, the clock interrupt
    handler runs on the edges that arrive before the timeout ([edges], in
    order); with none left and no unit the wait ends with [-EAGAIN]. *)
Fixpoint k_sem_take_timeout (edges : list gpio_env) (d : ps2_gpio_data)
    : Z * ps2_gpio_data :=
  match sem_count (write_lock d) with
  | S n => (0, set_write_lock (mk_sem n (sem_limit (write_lock d))) d)
  | O =>
      match edges with
      | [] => (- EAGAIN, d)
      | env :: edges' =>
          k_sem_take_timeout edges' (ps2_gpio_scl_interrupt_handler env d)
      end
  end.

(** The end of [ps2_gpio_write_byte_blocking], after the semaphore was
    taken: the status decides the return code and is reset. *)
Definition write_byte_blocking_finish (d : ps2_gpio_data)
    : Z * ps2_gpio_data :=
  let err :=
    if write_status_eqb (cur_write_status d) PS2_GPIO_WRITE_STATUS_SUCCESS
    then 0
    else to_int (- write_status_value (cur_write_status d)) in
  let d := set_cur_write_status PS2_GPIO_WRITE_STATUS_INACTIVE d in
  (err, d).

(** The part of [ps2_gpio_write_byte_blocking] after
    [err = k_sem_take(&data->write_lock, K_MSEC(500))]. *)
Definition write_byte_blocking_after_take (err : Z) (d : ps2_gpio_data)
    : Z * ps2_gpio_data :=
  if negb (err =? 0) then (err, d) else write_byte_blocking_finish d.

(** [int ps2_gpio_write_byte_blocking(uint8_t byte)]; [env] answers the
    initiation, [edges] are the clock edges during the wait. *)
Definition ps2_gpio_write_byte_blocking (env : gpio_env)
    (edges : list gpio_env) (byte : Z) (d : ps2_gpio_data)
    : Z * ps2_gpio_data :=
  let (err, d) := ps2_gpio_write_byte_async env byte d in
  if negb (err =? 0) then (err, d) else
  let (err, d) := k_sem_take_timeout edges d in
  write_byte_blocking_after_take err d.

(** ** Driver interface *)

(** [static int ps2_gpio_disable_callback(dev)] *)
Definition ps2_gpio_disable_callback (d : ps2_gpio_data)
    : Z * ps2_gpio_data :=
  let d := ps2_gpio_empty_data_queue d in
  let d := set_callback_enabled false d in
  (0, d).

(** [static int ps2_gpio_enable_callback(dev)] *)
Definition ps2_gpio_enable_callback (d : ps2_gpio_data)
    : Z * ps2_gpio_data :=
  let d := set_callback_enabled true d in
  let d := ps2_gpio_empty_data_queue d in
  (0, d).

(** [static int ps2_gpio_configure(dev, callback_isr)] *)
Definition ps2_gpio_configure (cb : option nat) (d : ps2_gpio_data)
    : Z * ps2_gpio_data :=
  match cb with
  | None => (- EINVAL, d)
  | Some f =>
      let d := set_callback_isr (Some f) d in
      let d := snd (ps2_gpio_enable_callback d) in
      (0, d)
  end.

(** ** Observations on the effects *)

(** The bytes handed to the consumer, by either route, in order. *)
Definition delivered (es : list effect) : list Z :=
  flat_map (fun e =>
    match e with
    | CallbackIsr b => [b]
    | KFifoPut b => [b]
    | _ => []
    end) es.

Definition callback_bytes (es : list effect) : list Z :=
  flat_map (fun e => match e with CallbackIsr b => [b] | _ => [] end) es.

Definition fifo_bytes (es : list effect) : list Z :=
  flat_map (fun e => match e with KFifoPut b => [b] | _ => [] end) es.

(** How often the write semaphore was given. *)
Definition sem_gives (es : list effect) : nat :=
  length (filter (fun e => match e with KSemGive => true | _ => false end) es).

(** The levels set on one line, in order. *)
Definition levels_set (l : gpio_line) (es : list effect) : list Z :=
  flat_map (fun e =>
    match e, l with
    | GpioPinSet SCL v, SCL => [v]
    | GpioPinSet SDA v, SDA => [v]
    | _, _ => []
    end) es.

(** The frame the device sends for [byte]: start, eight data bits least
    significant first, parity, stop; one level of the data line per edge. *)
Definition read_frame (byte : Z) : list Z :=
  0 :: map (fun i => PS2_GPIO_GET_BIT byte (Z.of_nat i)) (seq 0 8)
    ++ [Z.b2z (ps2_gpio_get_byte_parity byte); 1].

(** An environment whose data line is at [sda]; [cfg] answers
    [gpio_pin_configure]. *)
Definition env_sda (cfg : gpio_line -> gpio_flags -> Z) (sda : Z) : gpio_env :=
  mk_env (fun l => match l with SDA => sda | SCL => 0 end) cfg.

Definition cfg_ok : gpio_line -> gpio_flags -> Z := fun _ _ => 0.

(** ** The stages of an asynchronous write *)

(** The state of [ps2_gpio_write_byte_async] when the clock line has been
    asked to go low: semaphore taken if it was available, frame packed,
    mode and cursor set. *)
Definition async_at_scl_low (byte : Z) (d : ps2_gpio_data) : ps2_gpio_data :=
  let d := set_write_lock (snd (k_sem_take_no_wait (write_lock d))) d in
  let d :=
    set_write_buffer
      (pack_write_buffer byte (ps2_gpio_get_byte_parity byte)) d in
  let d := set_mode PS2_GPIO_MODE_WRITE d in
  let d := set_cur_write_pos PS2_GPIO_POS_START d in
  emit (GpioPinConfigure SCL GPIO_OUTPUT_LOW) d.

(** ... when the data line has been asked to go low (the start bit). *)
Definition async_at_sda_low (byte : Z) (d : ps2_gpio_data) : ps2_gpio_data :=
  let d := async_at_scl_low byte d in
  let d := emit (KSleepUsec 100) d in
  let d := set_cur_write_status PS2_GPIO_WRITE_STATUS_ACTIVE d in
  let d := set_cur_read_byte 0 d in
  let d := set_cur_read_pos PS2_GPIO_POS_START d in
  emit (GpioPinConfigure SDA GPIO_OUTPUT_LOW) d.

(** ... when the clock line has been asked to become an input again. *)
Definition async_at_scl_input (byte : Z) (d : ps2_gpio_data)
    : ps2_gpio_data :=
  let d := async_at_sda_low byte d in
  let d := set_cur_write_pos 1 d in
  let d := ps2_gpio_set_scl 1 d in
  emit (GpioPinConfigure SCL GPIO_INPUT) d.

(** ** Sample states and environments *)

(** A write in flight: the gate taken, the frame of [byte] packed, the
    cursor at [pos]. *)
Definition writing_state (byte pos : Z) : ps2_gpio_data :=
  mk_data None false [] PS2_GPIO_MODE_WRITE 0 0
    (pack_write_buffer byte (ps2_gpio_get_byte_parity byte)) pos
    PS2_GPIO_WRITE_STATUS_ACTIVE (k_sem_init 0 1) [].

(** An environment in which [gpio_pin_configure] fails with [err] on the
    call for line [l] with flags [f] and succeeds otherwise. *)
Definition cfg_fail_at (l : gpio_line) (f : gpio_flags) (err : Z)
    : gpio_line -> gpio_flags -> Z :=
  fun l' f' =>
    match l, l', f, f' with
    | SCL, SCL, GPIO_INPUT, GPIO_INPUT => err
    | SCL, SCL, GPIO_OUTPUT_LOW, GPIO_OUTPUT_LOW => err
    | SDA, SDA, GPIO_INPUT, GPIO_INPUT => err
    | SDA, SDA, GPIO_OUTPUT_LOW, GPIO_OUTPUT_LOW => err
    | _, _, _, _ => 0
    end.

(** The accumulator after the eight data bits of [b], least significant
    first, each set by the data branch of the receive handler. *)
Definition read_bit_step (b : Z) (acc : Z) (i : nat) : Z :=
  to_uint8 (PS2_GPIO_SET_BIT acc (PS2_GPIO_GET_BIT b (Z.of_nat i))
              (Z.of_nat i)).

Definition accumulate_bits (b : Z) : Z :=
  fold_left (read_bit_step b) (seq 0 8) 0.

(** All byte values. *)
Definition all_bytes : list Z := map Z.of_nat (seq 0 256).

(** The sixteen-bit frame for [byte] with the parity bit [p], as a number:
    start 0, data at bits 1 to 8, parity at bit 9, stop at bit 10. *)
Definition write_frame_value (byte : Z) (p : bool) : Z :=
  2 * byte + 512 * Z.b2z p + 1024.

(** ** Polling read *)

(** The value of [ETIMEDOUT] in the kernel's errno.h. *)
Definition ETIMEDOUT : Z := 116.

(** Modelled from the spec: [k_fifo_get(&data->data_queue,
    PS2_GPIO_TIMEOUT_READ)], the bounded wait on the queue of received
    bytes.  The head of the queue is taken as soon as there is one; while
    the caller waits, the clock interrupt handler runs on the edges that
    arrive before the timeout ([edges], in order); with none left and the
    queue empty the get returns NULL. *)
Fixpoint k_fifo_get_timeout (edges : list gpio_env) (d : ps2_gpio_data)
    : option queue_item * ps2_gpio_data :=
  match data_queue d with
  | x :: q => (Some x, set_data_queue q d)
  | [] =>
      match edges with
      | [] => (None, d)
      | env :: edges' =>
          k_fifo_get_timeout edges' (ps2_gpio_scl_interrupt_handler env d)
      end
  end.

(** [int ps2_gpio_read(dev, uint8_t *value)]: the return code, the byte
    at [*value] afterwards ([value] before the call) and the state.
    [*value = *queue_byte] reads through the address taken from the
    queue, that of a parameter whose storage has ended; the byte found
    there, [stale], is for the environment to say. *)
Definition ps2_gpio_read (stale : Z) (edges : list gpio_env) (value : Z)
    (d : ps2_gpio_data) : Z * Z * ps2_gpio_data :=
  match k_fifo_get_timeout edges d with
  | (None, d) => (- ETIMEDOUT, value, d)
  | (Some ByteParamAddr, d) => (0, stale, d)
  end.

(** [static int ps2_gpio_write(dev, uint8_t value)] *)
Definition ps2_gpio_write (env : gpio_env) (edges : list gpio_env)
    (value : Z) (d : ps2_gpio_data) : Z * ps2_gpio_data :=
  ps2_gpio_write_byte_blocking env edges value d.

(** ** Driver initialisation *)

(** What the outside answers during [ps2_gpio_init]: whether
    [device_get_binding] finds the port of a line, and the return codes of
    the GPIO calls.  The record has no field for the port pointers
    [scl_gpio] and [sda_gpio]: the lines are told apart by name. *)
Record init_env : Set := mk_init_env {
  device_get_binding : gpio_line -> bool;     (* false: NULL *)
  init_gpio : gpio_env;
  gpio_pin_interrupt_configure : Z;
  gpio_add_callback : Z
}.

(** [int ps2_gpio_configure_scl_pin(data, config)] *)
Definition ps2_gpio_configure_scl_pin (ienv : init_env) (d : ps2_gpio_data)
    : Z * ps2_gpio_data :=
  if negb (device_get_binding ienv SCL) then (- EINVAL, d) else
  let (err, d) := call_gpio_pin_configure (init_gpio ienv) SCL GPIO_INPUT d in
  if negb (err =? 0) then (err, d) else
  let err := gpio_pin_interrupt_configure ienv in
  if negb (err =? 0) then (err, d) else
  let err := gpio_add_callback ienv in
  if negb (err =? 0) then (err, d) else
  (0, d).

(** [int ps2_gpio_configure_sda_pin(data, config)] *)
Definition ps2_gpio_configure_sda_pin (ienv : init_env) (d : ps2_gpio_data)
    : Z * ps2_gpio_data :=
  if negb (device_get_binding ienv SDA) then (- EINVAL, d) else
  let (err, d) := call_gpio_pin_configure (init_gpio ienv) SDA GPIO_INPUT d in
  if negb (err =? 0) then (err, d) else
  (0, d).

(** [static int ps2_gpio_init(dev)]; [k_fifo_init] leaves the queue
    empty. *)
Definition ps2_gpio_init (ienv : init_env) (d : ps2_gpio_data)
    : Z * ps2_gpio_data :=
  let (err, d) := ps2_gpio_configure_scl_pin ienv d in
  if negb (err =? 0) then (err, d) else
  let (err, d) := ps2_gpio_configure_sda_pin ienv d in
  if negb (err =? 0) then (err, d) else
  let d := ps2_gpio_set_sda 1 d in
  let d := ps2_gpio_set_scl 1 d in
  let d := set_data_queue [] d in
  let d := set_write_lock (k_sem_init 0 1) d in
  (0, d).

(** ** Ranges of the fields *)

(** The cursors within their frames, the accumulator a byte, the write
    buffer sixteen bits, the semaphore within its limit. *)
Definition state_in_range (d : ps2_gpio_data) : Prop :=
  0 <= cur_read_pos d <= PS2_GPIO_POS_STOP /\
  0 <= cur_read_byte d < 256 /\
  0 <= cur_write_pos d <= PS2_GPIO_POS_ACK /\
  0 <= write_buffer d < 65536 /\
  (sem_count (write_lock d) <= sem_limit (write_lock d))%nat.

(** ** Whole frames *)

(** Several effects appended at once. *)
Definition emit_all (es : list effect) (d : ps2_gpio_data) : ps2_gpio_data :=
  mk_data (callback_isr d) (callback_enabled d) (data_queue d) (mode d)
    (cur_read_byte d) (cur_read_pos d) (write_buffer d) (cur_write_pos d)
    (cur_write_status d) (write_lock d) (effects d ++ es).

(** The levels a write of [byte] puts out on the ten clock edges after
    the start bit: eight data bits least significant first, parity,
    stop. *)
Definition write_frame_levels (byte : Z) : list Z :=
  map (fun i => PS2_GPIO_GET_BIT byte (Z.of_nat i)) (seq 0 8)
    ++ [Z.b2z (ps2_gpio_get_byte_parity byte); 1].

(** The data-line levels of a frame for [byte] whose parity bit is
    inverted, up to and including that bit. *)
Definition bad_parity_frame (byte : Z) : list Z :=
  0 :: map (fun i => PS2_GPIO_GET_BIT byte (Z.of_nat i)) (seq 0 8)
    ++ [1 - Z.b2z (ps2_gpio_get_byte_parity byte)].

(** The data-line levels of the frames of several bytes in a row. *)
Definition read_frames (bytes : list Z) : list Z :=
  flat_map read_frame bytes.

(** All three line configurations of an asynchronous write succeed. *)
Definition configure_ok (env : gpio_env) : Prop :=
  gpio_pin_configure env SCL GPIO_OUTPUT_LOW = 0 /\
  gpio_pin_configure env SDA GPIO_OUTPUT_LOW = 0 /\
  gpio_pin_configure env SCL GPIO_INPUT = 0.

(** The static initialiser of [ps2_gpio_data] before [ps2_gpio_init] has
    run: the semaphore's storage is all zero. *)
Definition ps2_gpio_data_static : ps2_gpio_data :=
  mk_data None false [] PS2_GPIO_MODE_READ 0 0 0 0
    PS2_GPIO_WRITE_STATUS_INACTIVE (mk_sem 0 0) [].

(** An initialisation environment in which every call succeeds. *)
Definition init_env_ok : init_env :=
  mk_init_env (fun _ => true) (env_sda cfg_ok 1) 0 0.

(** * Properties *)

(** ** Frame codec *)

Lemma builtin_parity_bit (x : Z) : builtin_parity x = 0 \/ builtin_parity x = 1.
Proof. unfold builtin_parity. destruct (xor_bits 32 x); auto. Qed.

Lemma xor_bits_popcount (n : nat) (x : Z) :
  xor_bits n x = Nat.odd (popcount n x).
Proof.
  induction n as [|k IH]; [reflexivity|].
  cbn [xor_bits popcount]. rewrite IH.
  destruct (Z.testbit x (Z.of_nat k)).
  - change (1 + popcount k x)%nat with (S (popcount k x)).
    rewrite Nat.odd_succ, <- Nat.negb_odd. reflexivity.
  - reflexivity.
Qed.

Lemma byte_high_bits (b k : Z) :
  0 <= b < 256 -> 8 <= k -> Z.testbit b k = false.
Proof.
  intros Hb Hk.
  destruct (Z.eq_dec b 0) as [->|Hnz]; [apply Z.bits_0|].
  apply Z.bits_above_log2; [lia|].
  apply Z.log2_lt_pow2; [lia|].
  assert (2 ^ 8 <= 2 ^ k) by (apply Z.pow_le_mono_r; lia).
  change (2 ^ 8) with 256 in *. lia.
Qed.

Lemma popcount_byte (b : Z) (n : nat) :
  0 <= b < 256 -> (8 <= n)%nat -> popcount n b = popcount 8 b.
Proof.
  intros Hb Hn. induction Hn as [|m Hm IH]; [reflexivity|].
  cbn [popcount]. rewrite (byte_high_bits b (Z.of_nat m)) by lia.
  exact IH.
Qed.

Lemma check_parity_accepts (b : Z) :
  ps2_gpio_check_parity b (Z.b2z (ps2_gpio_get_byte_parity b)) = true.
Proof.
  unfold ps2_gpio_check_parity, ps2_gpio_get_byte_parity.
  destruct (builtin_parity_bit b) as [-> | ->]; reflexivity.
Qed.

Lemma check_parity_rejects_flipped (b : Z) :
  ps2_gpio_check_parity b (1 - Z.b2z (ps2_gpio_get_byte_parity b)) = false.
Proof.
  unfold ps2_gpio_check_parity, ps2_gpio_get_byte_parity.
  destruct (builtin_parity_bit b) as [-> | ->]; reflexivity.
Qed.

(** C7.  For every byte [b], the parity bit the driver computes for [b]
    passes the driver's parity check, the flipped bit fails it, and the
    parity bit is 1 exactly when the number of set bits of [b] is even. *)
Theorem parity_round_trip (b : Z) (Hb : 0 <= b < 256) :
  ps2_gpio_check_parity b (Z.b2z (ps2_gpio_get_byte_parity b)) = true /\
  ps2_gpio_check_parity b (1 - Z.b2z (ps2_gpio_get_byte_parity b)) = false /\
  ps2_gpio_get_byte_parity b = negb (Nat.odd (popcount 8 b)) /\
  Z.b2z (ps2_gpio_get_byte_parity b) =
    (if Nat.even (popcount 8 b) then 1 else 0).
Proof.
  assert (Hpar : ps2_gpio_get_byte_parity b = negb (Nat.odd (popcount 8 b))).
  { unfold ps2_gpio_get_byte_parity, builtin_parity.
    rewrite xor_bits_popcount, (popcount_byte b 32 Hb) by lia.
    destruct (Nat.odd (popcount 8 b)); reflexivity. }
  repeat split.
  - apply check_parity_accepts.
  - apply check_parity_rejects_flipped.
  - exact Hpar.
  - rewrite Hpar, Nat.negb_odd. destruct (Nat.even (popcount 8 b)); reflexivity.
Qed.

Lemma parity_round_trip_witness :
  0 <= 0x45 < 256 /\
  ps2_gpio_check_parity 0x45 (Z.b2z (ps2_gpio_get_byte_parity 0x45)) = true /\
  ps2_gpio_check_parity 0x45 (1 - Z.b2z (ps2_gpio_get_byte_parity 0x45)) = false.
Proof.
  assert (H : 0 <= 0x45 < 256) by lia.
  split; [exact H|].
  split; [exact (proj1 (parity_round_trip 0x45 H))
         |exact (proj1 (proj2 (parity_round_trip 0x45 H)))].
Defined.

(** ** Machine integers and record fields *)

Lemma to_int_small (z : Z) : - 2 ^ 31 <= z < 2 ^ 31 -> to_int z = z.
Proof.
  intros H. unfold to_int.
  rewrite Z.mod_small; lia.
Qed.

Lemma mode_eqb_eq (a b : ps2_gpio_mode) : mode_eqb a b = true <-> a = b.
Proof. destruct a, b; simpl; split; congruence. Qed.

Lemma sem_gives_app (l1 l2 : list effect) :
  sem_gives (l1 ++ l2) = (sem_gives l1 + sem_gives l2)%nat.
Proof. unfold sem_gives. rewrite filter_app, length_app. reflexivity. Qed.

Lemma delivered_app (l1 l2 : list effect) :
  delivered (l1 ++ l2) = delivered l1 ++ delivered l2.
Proof. unfold delivered. apply flat_map_app. Qed.

Lemma callback_bytes_app (l1 l2 : list effect) :
  callback_bytes (l1 ++ l2) = callback_bytes l1 ++ callback_bytes l2.
Proof. unfold callback_bytes. apply flat_map_app. Qed.

Lemma fifo_bytes_app (l1 l2 : list effect) :
  fifo_bytes (l1 ++ l2) = fifo_bytes l1 ++ fifo_bytes l2.
Proof. unfold fifo_bytes. apply flat_map_app. Qed.

Lemma levels_set_app (l : gpio_line) (l1 l2 : list effect) :
  levels_set l (l1 ++ l2) = levels_set l l1 ++ levels_set l l2.
Proof. unfold levels_set. apply flat_map_app. Qed.

(** ** Transmit state machine *)

(** C1.  On a clock edge in write mode at a position from 1 to 9 the
    handler computes the bit of [write_buffer] at [cur_write_pos] and
    advances the cursor by one, but the level is set through
    [ps2_gpio_set_sda], whose body writes the clock pin: the one effect of
    the edge is a level set on SCL, and no level is set on SDA. *)
Theorem write_edge_data_bit_sets_clock_pin (env : gpio_env)
    (d : ps2_gpio_data)
    (Hmode : mode d = PS2_GPIO_MODE_WRITE)
    (Hpos : 1 <= cur_write_pos d <= 9) :
  effects (ps2_gpio_scl_interrupt_handler env d) =
    effects d ++
      [GpioPinSet SCL (PS2_GPIO_GET_BIT (write_buffer d) (cur_write_pos d))] /\
  levels_set SDA (effects (ps2_gpio_scl_interrupt_handler env d)) =
    levels_set SDA (effects d) /\
  levels_set SCL (effects (ps2_gpio_scl_interrupt_handler env d)) =
    levels_set SCL (effects d) ++
      [PS2_GPIO_GET_BIT (write_buffer d) (cur_write_pos d)] /\
  cur_write_pos (ps2_gpio_scl_interrupt_handler env d) = cur_write_pos d + 1.
Proof.
  unfold ps2_gpio_scl_interrupt_handler. rewrite Hmode. cbn [mode_eqb].
  unfold ps2_gpio_scl_interrupt_handler_write,
    PS2_GPIO_POS_START, PS2_GPIO_POS_STOP, PS2_GPIO_POS_ACK.
  destruct (Z.eqb_spec (cur_write_pos d) 0); [lia|].
  destruct (Z.eqb_spec (cur_write_pos d) 10); [lia|].
  destruct (Z.eqb_spec (cur_write_pos d) 11); [lia|].
  unfold ps2_gpio_scl_interrupt_handler_write_send_bit, ps2_gpio_set_sda.
  cbn [emit set_cur_write_pos effects cur_write_pos].
  rewrite !levels_set_app, to_int_small by lia.
  cbn [levels_set flat_map app]. rewrite app_nil_r.
  repeat split; reflexivity.
Qed.

Lemma write_edge_data_bit_sets_clock_pin_witness :
  levels_set SCL
    (effects (ps2_gpio_scl_interrupt_handler (env_sda cfg_ok 0)
                (writing_state 0x01 1))) = [1] /\
  levels_set SDA
    (effects (ps2_gpio_scl_interrupt_handler (env_sda cfg_ok 0)
                (writing_state 0x01 1))) = [].
Proof.
  assert (Hpos : 1 <= cur_write_pos (writing_state 0x01 1) <= 9)
    by (cbn [writing_state cur_write_pos]; lia).
  pose proof (write_edge_data_bit_sets_clock_pin (env_sda cfg_ok 0)
                (writing_state 0x01 1) eq_refl Hpos) as H.
  destruct H as [_ [Hsda [Hscl _]]].
  split; [exact Hscl | exact Hsda].
Defined.

(** C3.  On the clock edge at the acknowledgment position in write mode
    the status becomes Success when the data line reads 0 and Failure for
    any other value, the mode becomes Read, the buffer is cleared and the
    semaphore is given exactly once; the cursor, which the acknowledgment
    check resets to the start position, is then incremented by the
    handler's closing [cur_write_pos += 1] and ends at 1. *)
Theorem write_edge_ack_leaves_cursor_at_one (env : gpio_env)
    (d : ps2_gpio_data)
    (Hmode : mode d = PS2_GPIO_MODE_WRITE)
    (Hpos : cur_write_pos d = PS2_GPIO_POS_ACK) :
  cur_write_status (ps2_gpio_scl_interrupt_handler env d) =
    (if gpio_pin_get env SDA =? 0
     then PS2_GPIO_WRITE_STATUS_SUCCESS
     else PS2_GPIO_WRITE_STATUS_FAILURE) /\
  mode (ps2_gpio_scl_interrupt_handler env d) = PS2_GPIO_MODE_READ /\
  write_buffer (ps2_gpio_scl_interrupt_handler env d) = 0 /\
  effects (ps2_gpio_scl_interrupt_handler env d) = effects d ++ [KSemGive] /\
  sem_gives (effects (ps2_gpio_scl_interrupt_handler env d)) =
    S (sem_gives (effects d)) /\
  write_lock (ps2_gpio_scl_interrupt_handler env d) =
    k_sem_give (write_lock d) /\
  cur_write_pos (ps2_gpio_scl_interrupt_handler env d) = 1 /\
  cur_write_pos (ps2_gpio_scl_interrupt_handler env d) <> PS2_GPIO_POS_START.
Proof.
  unfold ps2_gpio_scl_interrupt_handler. rewrite Hmode. cbn [mode_eqb].
  unfold ps2_gpio_scl_interrupt_handler_write. rewrite Hpos.
  cbn [Z.eqb PS2_GPIO_POS_ACK PS2_GPIO_POS_START PS2_GPIO_POS_STOP Pos.eqb].
  unfold ps2_gpio_scl_interrupt_handler_write_check_ack, ps2_gpio_get_sda.
  destruct (gpio_pin_get env SDA =? 0);
    cbn [emit set_cur_write_pos set_write_lock set_mode set_write_buffer
         set_cur_write_status effects cur_write_pos write_lock mode
         write_buffer cur_write_status PS2_GPIO_POS_START];
    rewrite sem_gives_app; cbn [sem_gives filter length];
    (repeat split; try reflexivity; try lia; try discriminate).
Qed.

Lemma write_edge_ack_leaves_cursor_at_one_witness :
  cur_write_status
    (ps2_gpio_scl_interrupt_handler (env_sda cfg_ok 0)
       (writing_state 0x01 11)) = PS2_GPIO_WRITE_STATUS_SUCCESS /\
  cur_write_pos
    (ps2_gpio_scl_interrupt_handler (env_sda cfg_ok 0)
       (writing_state 0x01 11)) = 1.
Proof.
  pose proof (write_edge_ack_leaves_cursor_at_one (env_sda cfg_ok 0)
                (writing_state 0x01 11) eq_refl eq_refl) as H.
  destruct H as [Hst [_ [_ [_ [_ [_ [Hpos _]]]]]]].
  split; [exact Hst | exact Hpos].
Defined.

(** ** Write orchestrator *)

(** The non-blocking take answers 0 or [-EBUSY], so the early return of
    [ps2_gpio_write_byte_async] on another error is never taken. *)
Lemma k_sem_take_no_wait_code (sem : k_sem) :
  negb (fst (k_sem_take_no_wait sem) =? 0)
  && negb (fst (k_sem_take_no_wait sem) =? - EBUSY) = false.
Proof.
  unfold k_sem_take_no_wait. destruct (sem_count sem); reflexivity.
Qed.

(** The asynchronous write stops at the first line configuration that
    fails and returns its code; the state is the stage reached. *)
Lemma write_byte_async_stages (env : gpio_env) (byte : Z) (d : ps2_gpio_data) :
  ps2_gpio_write_byte_async env byte d =
    if negb (gpio_pin_configure env SCL GPIO_OUTPUT_LOW =? 0)
    then (gpio_pin_configure env SCL GPIO_OUTPUT_LOW, async_at_scl_low byte d)
    else if negb (gpio_pin_configure env SDA GPIO_OUTPUT_LOW =? 0)
    then (gpio_pin_configure env SDA GPIO_OUTPUT_LOW, async_at_sda_low byte d)
    else (gpio_pin_configure env SCL GPIO_INPUT, async_at_scl_input byte d).
Proof.
  unfold ps2_gpio_write_byte_async.
  pose proof (k_sem_take_no_wait_code (write_lock d)) as Hgate.
  destruct (k_sem_take_no_wait (write_lock d)) as [err sem] eqn:Htake.
  cbn [fst] in Hgate. rewrite Hgate.
  unfold call_gpio_pin_configure, async_at_scl_input, async_at_sda_low,
    async_at_scl_low.
  rewrite Htake. cbn [snd].
  destruct (gpio_pin_configure env SCL GPIO_OUTPUT_LOW =? 0); cbn [negb];
    [|reflexivity].
  destruct (gpio_pin_configure env SDA GPIO_OUTPUT_LOW =? 0); cbn [negb];
    [|reflexivity].
  destruct (Z.eqb_spec (gpio_pin_configure env SCL GPIO_INPUT) 0) as [->|_];
    cbn [negb]; reflexivity.
Qed.

(** C2 (counterexample).  With the semaphore already taken and a write in
    flight, a further asynchronous write is not rejected: it returns 0
    and has packed a new frame and restarted the cursor. *)
Lemma write_async_gate_held_counterexample :
  sem_count (write_lock (writing_state 0x01 5)) = 0%nat /\
  fst (k_sem_take_no_wait (write_lock (writing_state 0x01 5))) = - EBUSY /\
  fst (ps2_gpio_write_byte_async (env_sda cfg_ok 1) 0xfe
         (writing_state 0x01 5)) = 0 /\
  write_buffer (snd (ps2_gpio_write_byte_async (env_sda cfg_ok 1) 0xfe
                       (writing_state 0x01 5)))
    <> write_buffer (writing_state 0x01 5) /\
  cur_write_pos (snd (ps2_gpio_write_byte_async (env_sda cfg_ok 1) 0xfe
                        (writing_state 0x01 5))) = 1.
Proof.
  repeat split; try reflexivity.
  vm_compute. discriminate.
Qed.

(** C2 (amended).  When the semaphore is already taken, the non-blocking
    take answers [-EBUSY], which the asynchronous write tolerates: it
    leaves the semaphore as it is, packs the frame of the new byte, sets
    the mode to Write and goes on to configure the lines; its return code
    is the code of the first line configuration that fails, and 0 with
    the cursor at 1 and the status Active when none fails. *)
Theorem write_async_proceeds_when_gate_held (env : gpio_env) (byte : Z)
    (d : ps2_gpio_data)
    (Hheld : sem_count (write_lock d) = 0%nat) :
  k_sem_take_no_wait (write_lock d) = (- EBUSY, write_lock d) /\
  write_lock (snd (ps2_gpio_write_byte_async env byte d)) = write_lock d /\
  write_buffer (snd (ps2_gpio_write_byte_async env byte d)) =
    pack_write_buffer byte (ps2_gpio_get_byte_parity byte) /\
  mode (snd (ps2_gpio_write_byte_async env byte d)) = PS2_GPIO_MODE_WRITE /\
  fst (ps2_gpio_write_byte_async env byte d) =
    (if negb (gpio_pin_configure env SCL GPIO_OUTPUT_LOW =? 0)
     then gpio_pin_configure env SCL GPIO_OUTPUT_LOW
     else if negb (gpio_pin_configure env SDA GPIO_OUTPUT_LOW =? 0)
     then gpio_pin_configure env SDA GPIO_OUTPUT_LOW
     else gpio_pin_configure env SCL GPIO_INPUT) /\
  (gpio_pin_configure env SCL GPIO_OUTPUT_LOW = 0 ->
   gpio_pin_configure env SDA GPIO_OUTPUT_LOW = 0 ->
   gpio_pin_configure env SCL GPIO_INPUT = 0 ->
   fst (ps2_gpio_write_byte_async env byte d) = 0 /\
   cur_write_pos (snd (ps2_gpio_write_byte_async env byte d)) = 1 /\
   cur_write_status (snd (ps2_gpio_write_byte_async env byte d)) =
     PS2_GPIO_WRITE_STATUS_ACTIVE).
Proof.
  assert (Htake : k_sem_take_no_wait (write_lock d) = (- EBUSY, write_lock d)).
  { unfold k_sem_take_no_wait. rewrite Hheld. reflexivity. }
  rewrite write_byte_async_stages.
  split; [exact Htake|].
  split; [|split; [|split; [|split]]].
  - destruct (negb _); [|destruct (negb _)]; cbn [snd];
      unfold async_at_scl_input, async_at_sda_low, async_at_scl_low;
      rewrite Htake; reflexivity.
  - destruct (negb _); [|destruct (negb _)]; reflexivity.
  - destruct (negb _); [|destruct (negb _)]; reflexivity.
  - destruct (negb _); [|destruct (negb _)]; reflexivity.
  - intros E1 E2 E3. rewrite E1, E2. cbn [negb Z.eqb fst snd].
    split; [exact E3|]. split; reflexivity.
Qed.

Lemma write_async_proceeds_when_gate_held_witness :
  write_buffer (snd (ps2_gpio_write_byte_async (env_sda cfg_ok 1) 0xfe
                       (writing_state 0x01 5))) =
    pack_write_buffer 0xfe (ps2_gpio_get_byte_parity 0xfe) /\
  fst (ps2_gpio_write_byte_async (env_sda cfg_ok 1) 0xfe
         (writing_state 0x01 5)) = 0.
Proof.
  pose proof (write_async_proceeds_when_gate_held (env_sda cfg_ok 1) 0xfe
                (writing_state 0x01 5) eq_refl) as H.
  destruct H as [_ [_ [Hbuf [_ [_ Hok]]]]].
  split; [exact Hbuf | exact (proj1 (Hok eq_refl eq_refl eq_refl))].
Defined.

(** C4 (counterexample).  From the idle state, with the first line
    configuration failing, the asynchronous write returns the error and
    leaves the mode at Write. *)
Lemma write_async_line_error_counterexample :
  mode ps2_gpio_data_init = PS2_GPIO_MODE_READ /\
  fst (ps2_gpio_write_byte_async
         (env_sda (cfg_fail_at SCL GPIO_OUTPUT_LOW (-5)) 1) 0xf4
         ps2_gpio_data_init) = -5 /\
  mode (snd (ps2_gpio_write_byte_async
               (env_sda (cfg_fail_at SCL GPIO_OUTPUT_LOW (-5)) 1) 0xf4
               ps2_gpio_data_init)) <> PS2_GPIO_MODE_READ.
Proof.
  repeat split; try reflexivity.
  vm_compute. discriminate.
Qed.

(** C4 (amended).  When the asynchronous write returns an error, the error
    is the code of the line configuration that failed, and the state is
    left as the initiation had set it up to that call: the mode is Write
    and the frame is packed; if the first configuration (clock low)
    failed, the write cursor is at the start and status, read cursor and
    accumulator are untouched; if the second (data low) failed, the write
    cursor is at the start, the status is Active and the read cursor and
    accumulator are 0; if the third (clock to input) failed, the same
    with the write cursor at 1. *)
Theorem write_async_line_error_leaves_write_mode (env : gpio_env) (byte : Z)
    (d : ps2_gpio_data)
    (Herr : fst (ps2_gpio_write_byte_async env byte d) <> 0) :
  mode (snd (ps2_gpio_write_byte_async env byte d)) = PS2_GPIO_MODE_WRITE /\
  write_buffer (snd (ps2_gpio_write_byte_async env byte d)) =
    pack_write_buffer byte (ps2_gpio_get_byte_parity byte) /\
  ((gpio_pin_configure env SCL GPIO_OUTPUT_LOW <> 0 /\
    fst (ps2_gpio_write_byte_async env byte d) =
      gpio_pin_configure env SCL GPIO_OUTPUT_LOW /\
    cur_write_pos (snd (ps2_gpio_write_byte_async env byte d)) =
      PS2_GPIO_POS_START /\
    cur_write_status (snd (ps2_gpio_write_byte_async env byte d)) =
      cur_write_status d /\
    cur_read_pos (snd (ps2_gpio_write_byte_async env byte d)) =
      cur_read_pos d /\
    cur_read_byte (snd (ps2_gpio_write_byte_async env byte d)) =
      cur_read_byte d)
   \/
   (gpio_pin_configure env SCL GPIO_OUTPUT_LOW = 0 /\
    gpio_pin_configure env SDA GPIO_OUTPUT_LOW <> 0 /\
    fst (ps2_gpio_write_byte_async env byte d) =
      gpio_pin_configure env SDA GPIO_OUTPUT_LOW /\
    cur_write_pos (snd (ps2_gpio_write_byte_async env byte d)) =
      PS2_GPIO_POS_START /\
    cur_write_status (snd (ps2_gpio_write_byte_async env byte d)) =
      PS2_GPIO_WRITE_STATUS_ACTIVE /\
    cur_read_pos (snd (ps2_gpio_write_byte_async env byte d)) = 0 /\
    cur_read_byte (snd (ps2_gpio_write_byte_async env byte d)) = 0)
   \/
   (gpio_pin_configure env SCL GPIO_OUTPUT_LOW = 0 /\
    gpio_pin_configure env SDA GPIO_OUTPUT_LOW = 0 /\
    gpio_pin_configure env SCL GPIO_INPUT <> 0 /\
    fst (ps2_gpio_write_byte_async env byte d) =
      gpio_pin_configure env SCL GPIO_INPUT /\
    cur_write_pos (snd (ps2_gpio_write_byte_async env byte d)) = 1 /\
    cur_write_status (snd (ps2_gpio_write_byte_async env byte d)) =
      PS2_GPIO_WRITE_STATUS_ACTIVE /\
    cur_read_pos (snd (ps2_gpio_write_byte_async env byte d)) = 0 /\
    cur_read_byte (snd (ps2_gpio_write_byte_async env byte d)) = 0)).
Proof.
  rewrite write_byte_async_stages in *.
  destruct (Z.eqb_spec (gpio_pin_configure env SCL GPIO_OUTPUT_LOW) 0)
    as [E1|E1]; cbn [negb] in *.
  2: { split; [reflexivity|]. split; [reflexivity|].
       left. repeat split; try reflexivity. exact E1. }
  destruct (Z.eqb_spec (gpio_pin_configure env SDA GPIO_OUTPUT_LOW) 0)
    as [E2|E2]; cbn [negb] in *.
  2: { split; [reflexivity|]. split; [reflexivity|].
       right; left. repeat split; try reflexivity; assumption. }
  cbn [fst snd] in *.
  split; [reflexivity|]. split; [reflexivity|].
  right; right. repeat split; try reflexivity; assumption.
Qed.

Lemma write_async_line_error_leaves_write_mode_witness :
  fst (ps2_gpio_write_byte_async
         (env_sda (cfg_fail_at SDA GPIO_OUTPUT_LOW (-5)) 1) 0xf4
         ps2_gpio_data_init) = -5 /\
  mode (snd (ps2_gpio_write_byte_async
               (env_sda (cfg_fail_at SDA GPIO_OUTPUT_LOW (-5)) 1) 0xf4
               ps2_gpio_data_init)) = PS2_GPIO_MODE_WRITE.
Proof.
  assert (Herr : fst (ps2_gpio_write_byte_async
                        (env_sda (cfg_fail_at SDA GPIO_OUTPUT_LOW (-5)) 1)
                        0xf4 ps2_gpio_data_init) <> 0)
    by (vm_compute; discriminate).
  split; [reflexivity|].
  exact (proj1 (write_async_line_error_leaves_write_mode _ _ _ Herr)).
Defined.

(** ** Receive state machine *)

Lemma forallb_all_bytes (P : Z -> bool) :
  forallb P all_bytes = true -> forall b, 0 <= b < 256 -> P b = true.
Proof.
  intros Hall b Hb. rewrite forallb_forall in Hall. apply Hall.
  unfold all_bytes. rewrite <- (Z2Nat.id b) by lia.
  apply in_map, in_seq. lia.
Qed.

(** Setting the eight data bits one by one rebuilds the byte. *)
Lemma accumulate_bits_byte (b : Z) : 0 <= b < 256 -> accumulate_bits b = b.
Proof.
  intros Hb. apply Z.eqb_eq.
  apply (forallb_all_bytes (fun x => accumulate_bits x =? x)); [|exact Hb].
  vm_compute. reflexivity.
Qed.

Lemma read_edge_start (env : gpio_env) (d : ps2_gpio_data) :
  cur_read_pos d = PS2_GPIO_POS_START -> ps2_gpio_get_sda env = 0 ->
  ps2_gpio_scl_interrupt_handler_read env d = set_cur_read_pos 1 d.
Proof.
  intros Hpos Hsda. unfold ps2_gpio_scl_interrupt_handler_read.
  rewrite Hpos, Hsda. reflexivity.
Qed.

Lemma read_edge_data (env : gpio_env) (d : ps2_gpio_data) :
  1 <= cur_read_pos d <= 8 ->
  ps2_gpio_scl_interrupt_handler_read env d =
    set_cur_read_pos (cur_read_pos d + 1)
      (set_cur_read_byte
         (to_uint8 (PS2_GPIO_SET_BIT (cur_read_byte d) (ps2_gpio_get_sda env)
                      (cur_read_pos d - 1))) d).
Proof.
  intros Hpos. unfold ps2_gpio_scl_interrupt_handler_read,
    PS2_GPIO_POS_START, PS2_GPIO_POS_PARITY, PS2_GPIO_POS_STOP.
  destruct (Z.eqb_spec (cur_read_pos d) 0); [lia|].
  destruct (Z.eqb_spec (cur_read_pos d) 9); [lia|].
  destruct (Z.eqb_spec (cur_read_pos d) 10); [lia|].
  cbn [set_cur_read_byte cur_read_pos].
  rewrite !to_int_small by lia. reflexivity.
Qed.

Lemma read_edge_parity (env : gpio_env) (d : ps2_gpio_data) :
  cur_read_pos d = PS2_GPIO_POS_PARITY ->
  ps2_gpio_check_parity (cur_read_byte d) (ps2_gpio_get_sda env) = true ->
  ps2_gpio_scl_interrupt_handler_read env d = set_cur_read_pos 10 d.
Proof.
  intros Hpos Hpar. unfold ps2_gpio_scl_interrupt_handler_read.
  rewrite Hpos, Hpar. reflexivity.
Qed.

Lemma read_edge_stop (env : gpio_env) (d : ps2_gpio_data) :
  cur_read_pos d = PS2_GPIO_POS_STOP -> ps2_gpio_get_sda env = 1 ->
  ps2_gpio_scl_interrupt_handler_read env d =
    set_cur_read_byte 0
      (set_cur_read_pos PS2_GPIO_POS_START
         (ps2_gpio_process_received_byte (cur_read_byte d) d)).
Proof.
  intros Hpos Hsda. unfold ps2_gpio_scl_interrupt_handler_read.
  rewrite Hpos, Hsda. reflexivity.
Qed.

(** The three validation failures of the receive handler. *)
Lemma read_edge_failure (env : gpio_env) (d : ps2_gpio_data) :
  (cur_read_pos d = PS2_GPIO_POS_START /\ ps2_gpio_get_sda env <> 0) \/
  (cur_read_pos d = PS2_GPIO_POS_PARITY /\
   ps2_gpio_check_parity (cur_read_byte d) (ps2_gpio_get_sda env) = false) \/
  (cur_read_pos d = PS2_GPIO_POS_STOP /\ ps2_gpio_get_sda env <> 1) ->
  ps2_gpio_scl_interrupt_handler_read env d = ps2_gpio_abort_read env d.
Proof.
  unfold ps2_gpio_scl_interrupt_handler_read.
  intros [[Hpos Hsda] | [[Hpos Hpar] | [Hpos Hsda]]]; rewrite Hpos.
  - apply Z.eqb_neq in Hsda. rewrite Hsda. reflexivity.
  - rewrite Hpar. reflexivity.
  - apply Z.eqb_neq in Hsda. rewrite Hsda. reflexivity.
Qed.

Lemma set_read_fields_collapse (p p' x x' : Z) (d : ps2_gpio_data) :
  set_cur_read_pos p (set_cur_read_byte x
    (set_cur_read_pos p' (set_cur_read_byte x' d))) =
  set_cur_read_pos p (set_cur_read_byte x d).
Proof. reflexivity. Qed.

(** The data bits [k .. k+n-1] of [b], fed at cursor [k+1], leave the
    cursor at the parity position and the bits in the accumulator. *)
Lemma read_data_bits (b : Z) (n : nat) :
  forall (k : nat) (edges : list gpio_env) (d : ps2_gpio_data),
    (k + n = 8)%nat ->
    cur_read_pos d = Z.of_nat (S k) ->
    map ps2_gpio_get_sda edges =
      map (fun i => PS2_GPIO_GET_BIT b (Z.of_nat i)) (seq k n) ->
    run_edges ps2_gpio_scl_interrupt_handler_read edges d =
      set_cur_read_pos 9
        (set_cur_read_byte
           (fold_left (read_bit_step b) (seq k n) (cur_read_byte d)) d).
Proof.
  induction n as [|n IH]; intros k edges d Hk Hpos Hmap.
  - destruct edges; [|discriminate].
    assert (k = 8%nat) by lia. subst k.
    destruct d. cbn in *. subst. reflexivity.
  - destruct edges as [|env edges]; [discriminate|].
    cbn [map seq] in Hmap. injection Hmap as Hsda Hmap.
    unfold run_edges in *. cbn [fold_left].
    rewrite read_edge_data by lia.
    rewrite (IH (S k)); [| lia | cbn [set_cur_read_pos cur_read_pos]; lia
                        | exact Hmap].
    rewrite Hsda, Hpos.
    replace (Z.of_nat (S k) - 1) with (Z.of_nat k) by lia.
    cbn [set_cur_read_pos set_cur_read_byte cur_read_byte seq fold_left].
    reflexivity.
Qed.

(** On a state whose read cursor and accumulator are clear, the state
    after a full frame is the delivery alone. *)
Lemma read_frame_final_state (b : Z) (d : ps2_gpio_data) :
  cur_read_pos d = 0 -> cur_read_byte d = 0 ->
  set_cur_read_byte 0
    (set_cur_read_pos PS2_GPIO_POS_START
       (ps2_gpio_process_received_byte b
          (set_cur_read_pos 10
             (set_cur_read_pos 9
                (set_cur_read_byte b (set_cur_read_pos 1 d)))))) =
  ps2_gpio_process_received_byte b d.
Proof.
  intros Hpos Hbyte. destruct d. cbn in Hpos, Hbyte. subst.
  unfold ps2_gpio_process_received_byte, k_fifo_put.
  cbn [callback_isr callback_enabled set_cur_read_pos set_cur_read_byte].
  destruct (_ && _); reflexivity.
Qed.

Lemma process_received_byte_delivers (b : Z) (d : ps2_gpio_data) :
  delivered (effects (ps2_gpio_process_received_byte b d)) =
    delivered (effects d) ++ [b] /\
  (effects (ps2_gpio_process_received_byte b d) =
     effects d ++ [CallbackIsr b] \/
   effects (ps2_gpio_process_received_byte b d) =
     effects d ++ [KFifoPut b]) /\
  cur_read_pos (ps2_gpio_process_received_byte b d) = cur_read_pos d /\
  cur_read_byte (ps2_gpio_process_received_byte b d) = cur_read_byte d.
Proof.
  unfold ps2_gpio_process_received_byte, k_fifo_put.
  destruct (_ && _);
    cbn [emit set_data_queue effects cur_read_pos cur_read_byte];
    rewrite delivered_app; cbn [delivered flat_map app]; auto.
Qed.

(** C5.  From read cursor 0 and an empty accumulator, the eleven clock
    edges on which the data line shows the frame of a byte [b] (start 0,
    the eight bits of [b] least significant first, the parity bit of [b],
    stop 1) end in the state that the delivery of [b] alone produces:
    exactly one effect is added, the hand-over of [b] to the callback or
    to the FIFO, and the read cursor and the accumulator are 0 again. *)
Theorem read_frame_delivers_byte (b : Z) (edges : list gpio_env)
    (d : ps2_gpio_data)
    (Hb : 0 <= b < 256)
    (Hpos : cur_read_pos d = 0)
    (Hbyte : cur_read_byte d = 0)
    (Hframe : map ps2_gpio_get_sda edges = read_frame b) :
  run_edges ps2_gpio_scl_interrupt_handler_read edges d =
    ps2_gpio_process_received_byte b d /\
  delivered
    (effects (run_edges ps2_gpio_scl_interrupt_handler_read edges d)) =
    delivered (effects d) ++ [b] /\
  (effects (run_edges ps2_gpio_scl_interrupt_handler_read edges d) =
     effects d ++ [CallbackIsr b] \/
   effects (run_edges ps2_gpio_scl_interrupt_handler_read edges d) =
     effects d ++ [KFifoPut b]) /\
  cur_read_pos (run_edges ps2_gpio_scl_interrupt_handler_read edges d) = 0 /\
  cur_read_byte (run_edges ps2_gpio_scl_interrupt_handler_read edges d) = 0.
Proof.
  assert (Hrun : run_edges ps2_gpio_scl_interrupt_handler_read edges d =
                 ps2_gpio_process_received_byte b d).
  { unfold read_frame in Hframe.
    apply map_eq_cons in Hframe.
    destruct Hframe as (e0 & rest & -> & Hstart & Hrest).
    apply map_eq_app in Hrest.
    destruct Hrest as (bits & tail & -> & Hbits & Htail).
    destruct tail as [|e9 [|e10 [|]]]; try discriminate.
    cbn [map] in Htail. injection Htail as Hpar Hstop.
    unfold run_edges. cbn [fold_left]. rewrite fold_left_app.
    rewrite read_edge_start by assumption.
    fold (run_edges ps2_gpio_scl_interrupt_handler_read bits
            (set_cur_read_pos 1 d)).
    rewrite (read_data_bits b 8 0 bits (set_cur_read_pos 1 d));
      [| reflexivity | reflexivity | exact Hbits].
    cbn [set_cur_read_pos cur_read_byte]. rewrite Hbyte.
    fold (accumulate_bits b). rewrite accumulate_bits_byte by exact Hb.
    cbn [fold_left].
    rewrite (read_edge_parity e9);
      [| reflexivity
       | cbn [set_cur_read_pos set_cur_read_byte cur_read_byte];
         rewrite Hpar; apply check_parity_accepts].
    rewrite (read_edge_stop e10); [| reflexivity | exact Hstop].
    apply (read_frame_final_state b d Hpos Hbyte). }
  rewrite Hrun.
  destruct (process_received_byte_delivers b d) as (Hdel & Heff & Hp & Hy).
  repeat split; try assumption; congruence.
Qed.

Lemma read_frame_delivers_byte_witness :
  delivered
    (effects (run_edges ps2_gpio_scl_interrupt_handler_read
                (map (env_sda cfg_ok) (read_frame 0x45))
                ps2_gpio_data_init)) = [0x45] /\
  fifo_bytes
    (effects (run_edges ps2_gpio_scl_interrupt_handler_read
                (map (env_sda cfg_ok) (read_frame 0x45))
                ps2_gpio_data_init)) = [0x45].
Proof.
  assert (Hb : 0 <= 0x45 < 256) by lia.
  pose proof (read_frame_delivers_byte 0x45
                (map (env_sda cfg_ok) (read_frame 0x45))
                ps2_gpio_data_init Hb eq_refl eq_refl eq_refl) as H.
  destruct H as [Hrun [Hdel _]].
  split; [exact Hdel | rewrite Hrun; reflexivity].
Defined.

(** ** Abort and resend *)

Ltac async_cases env :=
  rewrite ?write_byte_async_stages;
  destruct (negb (gpio_pin_configure env SCL GPIO_OUTPUT_LOW =? 0));
    [|destruct (negb (gpio_pin_configure env SDA GPIO_OUTPUT_LOW =? 0))];
  cbn [fst snd];
  unfold async_at_scl_input, async_at_sda_low, async_at_scl_low,
    ps2_gpio_set_scl;
  cbn [emit set_write_lock set_write_buffer set_mode set_cur_write_pos
       set_cur_write_status set_cur_read_byte set_cur_read_pos
       callback_isr callback_enabled data_queue mode cur_read_byte
       cur_read_pos write_buffer cur_write_pos cur_write_status write_lock
       effects].

(** An asynchronous write hands no byte to the consumer, gives no
    semaphore and leaves the queue and the callback alone. *)
Lemma write_byte_async_frame (env : gpio_env) (byte : Z) (d : ps2_gpio_data) :
  delivered (effects (snd (ps2_gpio_write_byte_async env byte d))) =
    delivered (effects d) /\
  sem_gives (effects (snd (ps2_gpio_write_byte_async env byte d))) =
    sem_gives (effects d) /\
  data_queue (snd (ps2_gpio_write_byte_async env byte d)) = data_queue d /\
  callback_isr (snd (ps2_gpio_write_byte_async env byte d)) =
    callback_isr d /\
  callback_enabled (snd (ps2_gpio_write_byte_async env byte d)) =
    callback_enabled d.
Proof.
  async_cases env;
    rewrite !delivered_app, !sem_gives_app;
    cbn [delivered flat_map sem_gives filter length app];
    rewrite ?app_nil_r, ?Nat.add_0_r; repeat split; reflexivity.
Qed.

(** The order of the two steps of [ps2_gpio_abort_read] cannot be told
    from the outcome: resending and then clearing the read state is the
    same as clearing the read state and then resending. *)
Lemma abort_read_reset_then_resend (env : gpio_env) (d : ps2_gpio_data) :
  ps2_gpio_abort_read env d =
    ps2_gpio_send_cmd_resend env
      (set_cur_read_byte 0 (set_cur_read_pos PS2_GPIO_POS_START d)).
Proof.
  unfold ps2_gpio_abort_read, ps2_gpio_send_cmd_resend.
  async_cases env; reflexivity.
Qed.

(** C6.  On an invalid start bit at cursor 0, an invalid parity bit at
    cursor 9 or an invalid stop bit at cursor 10 the receive handler
    aborts: the outcome is that of clearing the read cursor and the
    accumulator and then starting an asynchronous write of the resend
    command 0xfe whose return code is dropped; the read cursor and the
    accumulator end at 0, the frame of 0xfe is in the write buffer and the
    mode is Write, and no byte reaches the callback or the queue. *)
Theorem read_failure_resets_and_resends (env : gpio_env) (d : ps2_gpio_data)
    (Hfail :
      (cur_read_pos d = PS2_GPIO_POS_START /\ ps2_gpio_get_sda env <> 0) \/
      (cur_read_pos d = PS2_GPIO_POS_PARITY /\
       ps2_gpio_check_parity (cur_read_byte d) (ps2_gpio_get_sda env)
         = false) \/
      (cur_read_pos d = PS2_GPIO_POS_STOP /\ ps2_gpio_get_sda env <> 1)) :
  ps2_gpio_scl_interrupt_handler_read env d =
    snd (ps2_gpio_write_byte_async env 0xfe
           (set_cur_read_byte 0 (set_cur_read_pos 0 d))) /\
  cur_read_pos (ps2_gpio_scl_interrupt_handler_read env d) = 0 /\
  cur_read_byte (ps2_gpio_scl_interrupt_handler_read env d) = 0 /\
  write_buffer (ps2_gpio_scl_interrupt_handler_read env d) =
    pack_write_buffer 0xfe (ps2_gpio_get_byte_parity 0xfe) /\
  mode (ps2_gpio_scl_interrupt_handler_read env d) = PS2_GPIO_MODE_WRITE /\
  delivered (effects (ps2_gpio_scl_interrupt_handler_read env d)) =
    delivered (effects d) /\
  data_queue (ps2_gpio_scl_interrupt_handler_read env d) = data_queue d.
Proof.
  rewrite (read_edge_failure env d Hfail).
  split; [apply abort_read_reset_then_resend|].
  unfold ps2_gpio_abort_read, ps2_gpio_send_cmd_resend, PS2_CMD_RESEND.
  cbn [set_cur_read_byte set_cur_read_pos cur_read_pos cur_read_byte
       write_buffer mode effects data_queue].
  destruct (write_byte_async_frame env 0xfe d) as (Hdel & _ & Hq & _).
  repeat split; try assumption; try reflexivity.
  - async_cases env; reflexivity.
  - async_cases env; reflexivity.
Qed.

Lemma read_failure_resets_and_resends_witness :
  cur_read_pos
    (ps2_gpio_scl_interrupt_handler_read (env_sda cfg_ok 1)
       ps2_gpio_data_init) = 0 /\
  mode
    (ps2_gpio_scl_interrupt_handler_read (env_sda cfg_ok 1)
       ps2_gpio_data_init) = PS2_GPIO_MODE_WRITE /\
  delivered
    (effects (ps2_gpio_scl_interrupt_handler_read (env_sda cfg_ok 1)
                ps2_gpio_data_init)) = [].
Proof.
  assert (Hfail :
    (cur_read_pos ps2_gpio_data_init = PS2_GPIO_POS_START /\
     ps2_gpio_get_sda (env_sda cfg_ok 1) <> 0) \/
    (cur_read_pos ps2_gpio_data_init = PS2_GPIO_POS_PARITY /\
     ps2_gpio_check_parity (cur_read_byte ps2_gpio_data_init)
       (ps2_gpio_get_sda (env_sda cfg_ok 1)) = false) \/
    (cur_read_pos ps2_gpio_data_init = PS2_GPIO_POS_STOP /\
     ps2_gpio_get_sda (env_sda cfg_ok 1) <> 1)).
  { left. split; [reflexivity | discriminate]. }
  pose proof (read_failure_resets_and_resends (env_sda cfg_ok 1)
                ps2_gpio_data_init Hfail) as H.
  destruct H as (_ & Hpos & _ & _ & Hmode & Hdel & _).
  repeat split; assumption.
Defined.

(** ** Blocking write *)

Lemma write_byte_async_ok_active (env : gpio_env) (byte : Z)
    (d : ps2_gpio_data) :
  fst (ps2_gpio_write_byte_async env byte d) = 0 ->
  cur_write_status (snd (ps2_gpio_write_byte_async env byte d)) =
    PS2_GPIO_WRITE_STATUS_ACTIVE.
Proof.
  rewrite write_byte_async_stages.
  destruct (Z.eqb_spec (gpio_pin_configure env SCL GPIO_OUTPUT_LOW) 0);
    cbn [negb fst snd]; [|congruence].
  destruct (Z.eqb_spec (gpio_pin_configure env SDA GPIO_OUTPUT_LOW) 0);
    cbn [negb fst snd]; [|congruence].
  reflexivity.
Qed.

(** An asynchronous write leaves the status as it was or sets it Active. *)
Lemma write_byte_async_status (env : gpio_env) (byte : Z)
    (d : ps2_gpio_data) :
  cur_write_status (snd (ps2_gpio_write_byte_async env byte d)) =
    cur_write_status d \/
  cur_write_status (snd (ps2_gpio_write_byte_async env byte d)) =
    PS2_GPIO_WRITE_STATUS_ACTIVE.
Proof. async_cases env; auto. Qed.

(** No clock edge makes the status Inactive. *)
Lemma interrupt_handler_keeps_status_set (env : gpio_env)
    (d : ps2_gpio_data) :
  cur_write_status d <> PS2_GPIO_WRITE_STATUS_INACTIVE ->
  cur_write_status (ps2_gpio_scl_interrupt_handler env d) <>
    PS2_GPIO_WRITE_STATUS_INACTIVE.
Proof.
  intros Hst.
  assert (Habort : cur_write_status (ps2_gpio_abort_read env d) <>
                   PS2_GPIO_WRITE_STATUS_INACTIVE).
  { unfold ps2_gpio_abort_read, ps2_gpio_send_cmd_resend.
    cbn [set_cur_read_byte set_cur_read_pos cur_write_status].
    destruct (write_byte_async_status env PS2_CMD_RESEND d) as [-> | ->];
      [exact Hst | discriminate]. }
  unfold ps2_gpio_scl_interrupt_handler,
    ps2_gpio_scl_interrupt_handler_read,
    ps2_gpio_scl_interrupt_handler_write,
    ps2_gpio_scl_interrupt_handler_write_check_ack,
    ps2_gpio_scl_interrupt_handler_write_send_bit,
    ps2_gpio_process_received_byte, k_fifo_put, ps2_gpio_set_sda,
    call_gpio_pin_configure.
  repeat match goal with
         | |- context [if ?c then _ else _] => destruct c
         end;
    cbn [emit set_write_lock set_write_buffer set_mode set_cur_write_pos
         set_cur_write_status set_cur_read_byte set_cur_read_pos
         set_data_queue cur_write_status snd];
    first [exact Habort | exact Hst | discriminate].
Qed.

Lemma k_sem_take_timeout_status (edges : list gpio_env) :
  forall d : ps2_gpio_data,
    cur_write_status d <> PS2_GPIO_WRITE_STATUS_INACTIVE ->
    cur_write_status (snd (k_sem_take_timeout edges d)) <>
      PS2_GPIO_WRITE_STATUS_INACTIVE.
Proof.
  induction edges as [|env edges IH]; intros d Hst; cbn [k_sem_take_timeout];
    destruct (sem_count (write_lock d)); cbn [snd set_write_lock
                                              cur_write_status];
    try exact Hst.
  apply IH, interrupt_handler_keeps_status_set, Hst.
Qed.

(** The bounded wait ends with 0 or with [-EAGAIN]. *)
Lemma k_sem_take_timeout_code (edges : list gpio_env) :
  forall d : ps2_gpio_data,
    fst (k_sem_take_timeout edges d) = 0 \/
    fst (k_sem_take_timeout edges d) = - EAGAIN.
Proof.
  induction edges as [|env edges IH]; intros d; cbn [k_sem_take_timeout];
    destruct (sem_count (write_lock d)); cbn [fst]; auto.
Qed.

(** The end of the blocking write on any state in which the caller may
    wake: the return code is 0 for Success and the negated enumerator of
    any other status. *)
Lemma write_byte_blocking_finish_code (d : ps2_gpio_data) :
  snd (write_byte_blocking_finish d) =
    set_cur_write_status PS2_GPIO_WRITE_STATUS_INACTIVE d /\
  fst (write_byte_blocking_finish d) =
    match cur_write_status d with
    | PS2_GPIO_WRITE_STATUS_SUCCESS => 0
    | st => - write_status_value st
    end.
Proof.
  unfold write_byte_blocking_finish. split; [reflexivity|].
  destruct (cur_write_status d); reflexivity.
Qed.

(** C8.  The blocking write, once the asynchronous initiation has
    succeeded, waits for the semaphore while the interrupt handler runs on
    the incoming clock edges.  If the wait times out it returns the
    error of the wait, [-EAGAIN], and the state, status included, as the
    wait left it.  If it wakes with the status Success it returns 0 and
    the status is reset to Inactive.  If it wakes with any other status it
    returns the negated value of that status, which is not 0, and the
    status is reset to Inactive. *)
Theorem write_blocking_outcomes (env : gpio_env) (edges : list gpio_env)
    (byte : Z) (d : ps2_gpio_data)
    (Hinit : fst (ps2_gpio_write_byte_async env byte d) = 0) :
  (fst (k_sem_take_timeout edges
          (snd (ps2_gpio_write_byte_async env byte d))) <> 0 ->
   ps2_gpio_write_byte_blocking env edges byte d =
     k_sem_take_timeout edges (snd (ps2_gpio_write_byte_async env byte d)) /\
   fst (ps2_gpio_write_byte_blocking env edges byte d) = - EAGAIN /\
   fst (ps2_gpio_write_byte_blocking env edges byte d) <> 0 /\
   cur_write_status (snd (ps2_gpio_write_byte_blocking env edges byte d)) =
     cur_write_status
       (snd (k_sem_take_timeout edges
               (snd (ps2_gpio_write_byte_async env byte d))))) /\
  (fst (k_sem_take_timeout edges
          (snd (ps2_gpio_write_byte_async env byte d))) = 0 ->
   cur_write_status
     (snd (k_sem_take_timeout edges
             (snd (ps2_gpio_write_byte_async env byte d)))) =
     PS2_GPIO_WRITE_STATUS_SUCCESS ->
   fst (ps2_gpio_write_byte_blocking env edges byte d) = 0 /\
   snd (ps2_gpio_write_byte_blocking env edges byte d) =
     set_cur_write_status PS2_GPIO_WRITE_STATUS_INACTIVE
       (snd (k_sem_take_timeout edges
               (snd (ps2_gpio_write_byte_async env byte d))))) /\
  (fst (k_sem_take_timeout edges
          (snd (ps2_gpio_write_byte_async env byte d))) = 0 ->
   cur_write_status
     (snd (k_sem_take_timeout edges
             (snd (ps2_gpio_write_byte_async env byte d)))) <>
     PS2_GPIO_WRITE_STATUS_SUCCESS ->
   fst (ps2_gpio_write_byte_blocking env edges byte d) =
     - write_status_value
         (cur_write_status
            (snd (k_sem_take_timeout edges
                    (snd (ps2_gpio_write_byte_async env byte d))))) /\
   fst (ps2_gpio_write_byte_blocking env edges byte d) <> 0 /\
   snd (ps2_gpio_write_byte_blocking env edges byte d) =
     set_cur_write_status PS2_GPIO_WRITE_STATUS_INACTIVE
       (snd (k_sem_take_timeout edges
               (snd (ps2_gpio_write_byte_async env byte d))))).
Proof.
  pose proof (write_byte_async_ok_active env byte d Hinit) as Hactive.
  unfold ps2_gpio_write_byte_blocking.
  destruct (ps2_gpio_write_byte_async env byte d) as [err d1].
  cbn [fst snd] in *. subst err. cbn [Z.eqb negb].
  assert (Hset : cur_write_status (snd (k_sem_take_timeout edges d1)) <>
                 PS2_GPIO_WRITE_STATUS_INACTIVE).
  { apply k_sem_take_timeout_status. rewrite Hactive. discriminate. }
  pose proof (k_sem_take_timeout_code edges d1) as Hcode.
  destruct (k_sem_take_timeout edges d1) as [werr d2].
  cbn [fst snd] in *. unfold write_byte_blocking_after_take.
  destruct (write_byte_blocking_finish_code d2) as [Hfin_state Hfin_code].
  split; [|split].
  - intros Hw. apply Z.eqb_neq in Hw. rewrite Hw. cbn [negb fst snd].
    apply Z.eqb_neq in Hw.
    destruct Hcode as [E | E]; [contradiction|].
    repeat split; assumption.
  - intros -> Hsucc. cbn [Z.eqb negb].
    rewrite Hfin_state, Hfin_code, Hsucc. split; reflexivity.
  - intros -> Hother. cbn [Z.eqb negb].
    rewrite Hfin_state, Hfin_code.
    destruct (cur_write_status d2); cbn [write_status_value];
      repeat split; try reflexivity; try discriminate; congruence.
Qed.

Lemma write_blocking_outcomes_witness :
  (* acknowledged: eleven edges with the data line low *)
  fst (ps2_gpio_write_byte_blocking (env_sda cfg_ok 0)
         (repeat (env_sda cfg_ok 0) 11) 0x01 ps2_gpio_data_init) = 0 /\
  (* not acknowledged: the data line is high on the last edge *)
  fst (ps2_gpio_write_byte_blocking (env_sda cfg_ok 0)
         (repeat (env_sda cfg_ok 0) 10 ++ [env_sda cfg_ok 1]) 0x01
         ps2_gpio_data_init) = -3 /\
  (* no edge arrives *)
  fst (ps2_gpio_write_byte_blocking (env_sda cfg_ok 0) [] 0x01
         ps2_gpio_data_init) = - EAGAIN.
Proof.
  split; [|split].
  - refine (proj1 (proj1 (proj2 (write_blocking_outcomes (env_sda cfg_ok 0)
             (repeat (env_sda cfg_ok 0) 11) 0x01 ps2_gpio_data_init
             eq_refl)) _ _)); reflexivity.
  - refine (proj1 (proj2 (proj2 (write_blocking_outcomes (env_sda cfg_ok 0)
             (repeat (env_sda cfg_ok 0) 10 ++ [env_sda cfg_ok 1]) 0x01
             ps2_gpio_data_init eq_refl)) _ _));
      [reflexivity | vm_compute; discriminate].
  - refine (proj1 (proj2 (proj1 (write_blocking_outcomes (env_sda cfg_ok 0)
             [] 0x01 ps2_gpio_data_init eq_refl) _)));
      vm_compute; discriminate.
Defined.

(** ** Mode controller *)

Lemma interrupt_handler_read_frame (env : gpio_env) (d : ps2_gpio_data) :
  sem_gives (effects (ps2_gpio_scl_interrupt_handler_read env d)) =
    sem_gives (effects d) /\
  levels_set SCL (effects (ps2_gpio_scl_interrupt_handler_read env d)) =
    levels_set SCL (effects d).
Proof.
  assert (Habort :
    sem_gives (effects (ps2_gpio_abort_read env d)) = sem_gives (effects d) /\
    levels_set SCL (effects (ps2_gpio_abort_read env d)) =
      levels_set SCL (effects d)).
  { unfold ps2_gpio_abort_read, ps2_gpio_send_cmd_resend.
    cbn [set_cur_read_byte set_cur_read_pos effects].
    async_cases env;
      rewrite !sem_gives_app, !levels_set_app;
      cbn [sem_gives filter length levels_set flat_map app];
      rewrite ?app_nil_r, ?Nat.add_0_r; split; reflexivity. }
  unfold ps2_gpio_scl_interrupt_handler_read,
    ps2_gpio_process_received_byte, k_fifo_put.
  repeat match goal with
         | |- context [if ?c then _ else _] => destruct c
         end;
    try exact Habort;
    cbn [emit set_cur_read_byte set_cur_read_pos set_data_queue effects];
    rewrite ?sem_gives_app, ?levels_set_app;
    cbn [sem_gives filter length levels_set flat_map app];
    rewrite ?app_nil_r, ?Nat.add_0_r; split; reflexivity.
Qed.

Lemma interrupt_handler_write_frame (env : gpio_env) (d : ps2_gpio_data) :
  cur_read_pos (ps2_gpio_scl_interrupt_handler_write env d) =
    cur_read_pos d /\
  cur_read_byte (ps2_gpio_scl_interrupt_handler_write env d) =
    cur_read_byte d /\
  delivered (effects (ps2_gpio_scl_interrupt_handler_write env d)) =
    delivered (effects d) /\
  data_queue (ps2_gpio_scl_interrupt_handler_write env d) = data_queue d.
Proof.
  unfold ps2_gpio_scl_interrupt_handler_write,
    ps2_gpio_scl_interrupt_handler_write_check_ack,
    ps2_gpio_scl_interrupt_handler_write_send_bit, ps2_gpio_set_sda,
    call_gpio_pin_configure.
  repeat match goal with
         | |- context [if ?c then _ else _] => destruct c
         end;
    cbn [emit set_write_lock set_write_buffer set_mode set_cur_write_pos
         set_cur_write_status cur_read_pos cur_read_byte effects data_queue
         snd];
    rewrite ?delivered_app; cbn [delivered flat_map app];
    rewrite ?app_nil_r; repeat split; reflexivity.
Qed.

(** C9.  The clock interrupt handler dispatches on the mode alone.  In
    Write mode the edge is handled by the transmit handler and by nothing
    else: the read cursor, the accumulator, the queue and the bytes
    delivered are untouched.  In Read mode the edge is handled by the
    receive handler and by nothing else: no semaphore is given (no
    acknowledgment is processed) and no level is set through
    [ps2_gpio_set_sda] (no bit of the write buffer is sent). *)
Theorem interrupt_dispatch_by_mode (env : gpio_env) (d : ps2_gpio_data) :
  match mode d with
  | PS2_GPIO_MODE_WRITE =>
      ps2_gpio_scl_interrupt_handler env d =
        ps2_gpio_scl_interrupt_handler_write env d /\
      cur_read_pos (ps2_gpio_scl_interrupt_handler env d) = cur_read_pos d /\
      cur_read_byte (ps2_gpio_scl_interrupt_handler env d) =
        cur_read_byte d /\
      delivered (effects (ps2_gpio_scl_interrupt_handler env d)) =
        delivered (effects d) /\
      data_queue (ps2_gpio_scl_interrupt_handler env d) = data_queue d
  | PS2_GPIO_MODE_READ =>
      ps2_gpio_scl_interrupt_handler env d =
        ps2_gpio_scl_interrupt_handler_read env d /\
      sem_gives (effects (ps2_gpio_scl_interrupt_handler env d)) =
        sem_gives (effects d) /\
      levels_set SCL (effects (ps2_gpio_scl_interrupt_handler env d)) =
        levels_set SCL (effects d)
  end.
Proof.
  unfold ps2_gpio_scl_interrupt_handler.
  destruct (mode d); cbn [mode_eqb].
  - split; [reflexivity | apply interrupt_handler_read_frame].
  - split; [reflexivity | apply interrupt_handler_write_frame].
Qed.

(** ** Delivery sink *)

Lemma empty_data_queue_loop_nil (q : list queue_item) :
  empty_data_queue_loop q = [].
Proof. induction q as [|x q IH]; [reflexivity | exact IH]. Qed.

(** Draining the queue and setting the enable flag touch different
    fields, so their order cannot be told from the outcome. *)
Lemma empty_data_queue_set_enabled (v : bool) (d : ps2_gpio_data) :
  ps2_gpio_empty_data_queue (set_callback_enabled v d) =
    set_callback_enabled v (ps2_gpio_empty_data_queue d).
Proof. reflexivity. Qed.



(** ** The packed write frame *)

(** The frame packed for a byte is start 0, the byte at bits 1 to 8, the
    parity bit at bit 9 and stop 1 at bit 10. *)
Lemma pack_write_buffer_value (b : Z) (p : bool) :
  0 <= b < 256 -> pack_write_buffer b p = write_frame_value b p.
Proof.
  intros Hb. apply Z.eqb_eq.
  apply (forallb_all_bytes
           (fun x => pack_write_buffer x p =? write_frame_value x p));
    [|exact Hb].
  destruct p; vm_compute; reflexivity.
Qed.

(** Bits 1 to 8 of the packed frame, least significant first, are the
    bits of the byte. *)
Lemma pack_write_buffer_data_bits (b : Z) (p : bool) (i : Z) :
  0 <= b < 256 -> 0 <= i < 8 ->
  PS2_GPIO_GET_BIT (pack_write_buffer b p) (i + 1) = PS2_GPIO_GET_BIT b i.
Proof.
  intros Hb Hi. apply Z.eqb_eq.
  apply (forallb_all_bytes
           (fun x => PS2_GPIO_GET_BIT (pack_write_buffer x p) (i + 1)
                     =? PS2_GPIO_GET_BIT x i)); [|exact Hb].
  assert (Hcases : i = 0 \/ i = 1 \/ i = 2 \/ i = 3 \/ i = 4 \/ i = 5 \/
                   i = 6 \/ i = 7) by lia.
  destruct p;
    repeat (destruct Hcases as [-> | Hcases]; [vm_compute; reflexivity|]);
    subst i; vm_compute; reflexivity.
Qed.

(** X1.  The frame packed for a byte has start bit 0 at bit 0, the bits
    of the byte, least significant first, at bits 1 to 8, the parity bit
    at bit 9 and stop bit 1 at bit 10; nothing is set above bit 10. *)
Theorem write_frame_layout (b : Z) (Hb : 0 <= b < 256) :
  PS2_GPIO_GET_BIT
    (pack_write_buffer b (ps2_gpio_get_byte_parity b)) 0 = 0 /\
  (forall i, 0 <= i < 8 ->
     PS2_GPIO_GET_BIT
       (pack_write_buffer b (ps2_gpio_get_byte_parity b)) (i + 1) =
     PS2_GPIO_GET_BIT b i) /\
  PS2_GPIO_GET_BIT
    (pack_write_buffer b (ps2_gpio_get_byte_parity b)) 9 =
    Z.b2z (ps2_gpio_get_byte_parity b) /\
  PS2_GPIO_GET_BIT
    (pack_write_buffer b (ps2_gpio_get_byte_parity b)) 10 = 1 /\
  pack_write_buffer b (ps2_gpio_get_byte_parity b) =
    2 * b + 512 * Z.b2z (ps2_gpio_get_byte_parity b) + 1024 /\
  0 <= pack_write_buffer b (ps2_gpio_get_byte_parity b) < 2048.
Proof.
  assert (Hfix : forall p,
    (PS2_GPIO_GET_BIT (pack_write_buffer b p) 0 =? 0) &&
    (PS2_GPIO_GET_BIT (pack_write_buffer b p) 9 =? Z.b2z p) &&
    (PS2_GPIO_GET_BIT (pack_write_buffer b p) 10 =? 1) = true).
  { intros p.
    apply (forallb_all_bytes
             (fun x =>
                (PS2_GPIO_GET_BIT (pack_write_buffer x p) 0 =? 0) &&
                (PS2_GPIO_GET_BIT (pack_write_buffer x p) 9 =? Z.b2z p) &&
                (PS2_GPIO_GET_BIT (pack_write_buffer x p) 10 =? 1)));
      [|exact Hb].
    destruct p; vm_compute; reflexivity. }
  specialize (Hfix (ps2_gpio_get_byte_parity b)).
  apply andb_prop in Hfix. destruct Hfix as [Hfix H10].
  apply andb_prop in Hfix. destruct Hfix as [H0 H9].
  apply Z.eqb_eq in H0, H9, H10.
  pose proof (pack_write_buffer_value b (ps2_gpio_get_byte_parity b) Hb)
    as Hval.
  unfold write_frame_value in Hval.
  split; [exact H0|]. split.
  { intros i Hi. apply pack_write_buffer_data_bits; assumption. }
  split; [exact H9|]. split; [exact H10|]. split; [exact Hval|].
  rewrite Hval. destruct (ps2_gpio_get_byte_parity b); cbn [Z.b2z]; lia.
Qed.

Lemma write_frame_layout_witness :
  pack_write_buffer 0xf4 (ps2_gpio_get_byte_parity 0xf4) =
    2 * 0xf4 + 512 * Z.b2z (ps2_gpio_get_byte_parity 0xf4) + 1024.
Proof.
  assert (Hb : 0 <= 0xf4 < 256) by lia.
  exact (proj1 (proj2 (proj2 (proj2 (proj2 (write_frame_layout 0xf4 Hb)))))).
Defined.

(** ** Clock edges of a write, one by one *)

Lemma dispatch_write (env : gpio_env) (d : ps2_gpio_data) :
  mode d = PS2_GPIO_MODE_WRITE ->
  ps2_gpio_scl_interrupt_handler env d =
    ps2_gpio_scl_interrupt_handler_write env d.
Proof.
  intros Hmode. unfold ps2_gpio_scl_interrupt_handler. rewrite Hmode.
  reflexivity.
Qed.

Lemma dispatch_read (env : gpio_env) (d : ps2_gpio_data) :
  mode d = PS2_GPIO_MODE_READ ->
  ps2_gpio_scl_interrupt_handler env d =
    ps2_gpio_scl_interrupt_handler_read env d.
Proof.
  intros Hmode. unfold ps2_gpio_scl_interrupt_handler. rewrite Hmode.
  reflexivity.
Qed.

Lemma write_edge_ignored (env : gpio_env) (d : ps2_gpio_data) :
  mode d = PS2_GPIO_MODE_WRITE -> cur_write_pos d = PS2_GPIO_POS_START ->
  ps2_gpio_scl_interrupt_handler env d = d.
Proof.
  intros Hmode Hpos. rewrite dispatch_write by exact Hmode.
  unfold ps2_gpio_scl_interrupt_handler_write. rewrite Hpos. reflexivity.
Qed.

Lemma write_edge_send (env : gpio_env) (d : ps2_gpio_data) :
  mode d = PS2_GPIO_MODE_WRITE -> 1 <= cur_write_pos d <= 9 ->
  ps2_gpio_scl_interrupt_handler env d =
    set_cur_write_pos (cur_write_pos d + 1)
      (emit_all
         [GpioPinSet SCL (PS2_GPIO_GET_BIT (write_buffer d) (cur_write_pos d))]
         d).
Proof.
  intros Hmode Hpos. rewrite dispatch_write by exact Hmode.
  unfold ps2_gpio_scl_interrupt_handler_write,
    PS2_GPIO_POS_START, PS2_GPIO_POS_STOP, PS2_GPIO_POS_ACK.
  destruct (Z.eqb_spec (cur_write_pos d) 0); [lia|].
  destruct (Z.eqb_spec (cur_write_pos d) 10); [lia|].
  destruct (Z.eqb_spec (cur_write_pos d) 11); [lia|].
  unfold ps2_gpio_scl_interrupt_handler_write_send_bit, ps2_gpio_set_sda.
  cbn [emit cur_write_pos]. rewrite to_int_small by lia. reflexivity.
Qed.

Lemma write_edge_stop (env : gpio_env) (d : ps2_gpio_data) :
  mode d = PS2_GPIO_MODE_WRITE -> cur_write_pos d = PS2_GPIO_POS_STOP ->
  ps2_gpio_scl_interrupt_handler env d =
    set_cur_write_pos PS2_GPIO_POS_ACK
      (emit_all
         [GpioPinSet SCL (PS2_GPIO_GET_BIT (write_buffer d) 10);
          GpioPinConfigure SDA GPIO_INPUT] d).
Proof.
  intros Hmode Hpos. rewrite dispatch_write by exact Hmode.
  unfold ps2_gpio_scl_interrupt_handler_write. rewrite Hpos.
  cbn [Z.eqb PS2_GPIO_POS_START PS2_GPIO_POS_STOP Pos.eqb].
  unfold ps2_gpio_scl_interrupt_handler_write_send_bit, ps2_gpio_set_sda,
    call_gpio_pin_configure.
  cbn [snd]. unfold emit, emit_all, set_cur_write_pos.
  cbn [effects cur_write_pos callback_isr callback_enabled data_queue mode
       cur_read_byte cur_read_pos write_buffer cur_write_status write_lock].
  rewrite Hpos, <- app_assoc. reflexivity.
Qed.

Lemma write_edge_ack (env : gpio_env) (d : ps2_gpio_data) :
  mode d = PS2_GPIO_MODE_WRITE -> cur_write_pos d = PS2_GPIO_POS_ACK ->
  ps2_gpio_scl_interrupt_handler env d =
    set_cur_write_pos 1
      (ps2_gpio_scl_interrupt_handler_write_check_ack env d).
Proof.
  intros Hmode Hpos. rewrite dispatch_write by exact Hmode.
  unfold ps2_gpio_scl_interrupt_handler_write. rewrite Hpos.
  cbn [Z.eqb PS2_GPIO_POS_START PS2_GPIO_POS_STOP PS2_GPIO_POS_ACK Pos.eqb].
  unfold ps2_gpio_scl_interrupt_handler_write_check_ack.
  destruct (ps2_gpio_get_sda env =? 0); reflexivity.
Qed.

Lemma emit_all_merge (p q : Z) (e : effect) (es : list effect)
    (d : ps2_gpio_data) :
  set_cur_write_pos p (emit_all es (set_cur_write_pos q (emit_all [e] d))) =
  set_cur_write_pos p (emit_all (e :: es) d).
Proof.
  unfold set_cur_write_pos, emit_all.
  cbn [callback_isr callback_enabled data_queue mode cur_read_byte
       cur_read_pos write_buffer cur_write_pos cur_write_status write_lock
       effects].
  rewrite <- app_assoc. reflexivity.
Qed.

(** The data and parity edges of a write: [n] edges from cursor [k]
    set the bits [k .. k+n-1] of the write buffer, in order. *)
Lemma write_bits_run (n : nat) :
  forall (k : nat) (edges : list gpio_env) (d : ps2_gpio_data),
    length edges = n ->
    mode d = PS2_GPIO_MODE_WRITE ->
    cur_write_pos d = Z.of_nat k ->
    (1 <= k)%nat -> (k + n <= 10)%nat ->
    run_edges ps2_gpio_scl_interrupt_handler edges d =
      set_cur_write_pos (Z.of_nat (k + n))
        (emit_all
           (map (fun i =>
                   GpioPinSet SCL
                     (PS2_GPIO_GET_BIT (write_buffer d) (Z.of_nat i)))
                (seq k n)) d).
Proof.
  induction n as [|n IH]; intros k edges d Hlen Hmode Hpos Hk Hkn.
  - destruct edges; [|discriminate]. rewrite Nat.add_0_r.
    destruct d. cbn in *. subst. unfold emit_all, set_cur_write_pos.
    cbn. rewrite app_nil_r. reflexivity.
  - destruct edges as [|env edges]; [discriminate|].
    injection Hlen as Hlen.
    unfold run_edges in *. cbn [fold_left].
    rewrite write_edge_send by (try assumption; lia).
    rewrite (IH (S k)); [| exact Hlen | exact Hmode
                        | cbn [set_cur_write_pos cur_write_pos]; lia
                        | lia | lia].
    cbn [set_cur_write_pos emit_all write_buffer].
    fold (emit_all
            [GpioPinSet SCL
               (PS2_GPIO_GET_BIT (write_buffer d) (cur_write_pos d))] d).
    rewrite Hpos. cbn [seq map].
    replace (S k + n)%nat with (k + S n)%nat by lia.
    unfold emit_all, set_cur_write_pos.
    cbn [callback_isr callback_enabled data_queue mode cur_read_byte
         cur_read_pos write_buffer cur_write_pos cur_write_status write_lock
         effects].
    rewrite <- app_assoc. reflexivity.
Qed.

(** An edge of a write before the acknowledgment keeps the mode, the
    status, the buffer and the semaphore, and moves the cursor by one. *)
Lemma write_edge_progress (env : gpio_env) (d : ps2_gpio_data) :
  mode d = PS2_GPIO_MODE_WRITE -> 1 <= cur_write_pos d <= 10 ->
  mode (ps2_gpio_scl_interrupt_handler env d) = PS2_GPIO_MODE_WRITE /\
  cur_write_pos (ps2_gpio_scl_interrupt_handler env d) =
    cur_write_pos d + 1 /\
  write_lock (ps2_gpio_scl_interrupt_handler env d) = write_lock d /\
  cur_write_status (ps2_gpio_scl_interrupt_handler env d) =
    cur_write_status d /\
  write_buffer (ps2_gpio_scl_interrupt_handler env d) = write_buffer d /\
  sem_gives (effects (ps2_gpio_scl_interrupt_handler env d)) =
    sem_gives (effects d).
Proof.
  intros Hmode Hpos.
  destruct (Z.eq_dec (cur_write_pos d) 10) as [E|E].
  - rewrite write_edge_stop by assumption. rewrite E.
    cbn [set_cur_write_pos emit_all effects]. rewrite sem_gives_app.
    cbn [sem_gives filter length]. rewrite Nat.add_0_r.
    repeat split; try reflexivity. exact Hmode.
  - rewrite write_edge_send by (try assumption; lia).
    cbn [set_cur_write_pos emit_all effects]. rewrite sem_gives_app.
    cbn [sem_gives filter length]. rewrite Nat.add_0_r.
    repeat split; try reflexivity. exact Hmode.
Qed.

Lemma write_progress_run (n : nat) :
  forall (k : nat) (edges : list gpio_env) (d : ps2_gpio_data),
    length edges = n ->
    mode d = PS2_GPIO_MODE_WRITE ->
    cur_write_pos d = Z.of_nat k ->
    (1 <= k)%nat -> (k + n <= 11)%nat ->
    mode (run_edges ps2_gpio_scl_interrupt_handler edges d) =
      PS2_GPIO_MODE_WRITE /\
    cur_write_pos (run_edges ps2_gpio_scl_interrupt_handler edges d) =
      Z.of_nat (k + n) /\
    write_lock (run_edges ps2_gpio_scl_interrupt_handler edges d) =
      write_lock d /\
    cur_write_status (run_edges ps2_gpio_scl_interrupt_handler edges d) =
      cur_write_status d /\
    sem_gives
      (effects (run_edges ps2_gpio_scl_interrupt_handler edges d)) =
      sem_gives (effects d).
Proof.
  induction n as [|n IH]; intros k edges d Hlen Hmode Hpos Hk Hkn.
  - destruct edges; [|discriminate]. rewrite Nat.add_0_r.
    repeat split; try assumption; reflexivity.
  - destruct edges as [|env edges]; [discriminate|].
    injection Hlen as Hlen.
    destruct (write_edge_progress env d Hmode ltac:(lia))
      as (Hm & Hp & Hl & Hs & _ & Hg).
    unfold run_edges in *. cbn [fold_left].
    destruct (IH (S k) edges (ps2_gpio_scl_interrupt_handler env d)
                Hlen Hm ltac:(lia) ltac:(lia) ltac:(lia))
      as (Hm' & Hp' & Hl' & Hs' & Hg').
    replace (k + S n)%nat with (S k + n)%nat by lia.
    repeat split; congruence.
Qed.

(** While a write is before its acknowledgment and the semaphore is
    taken, a waiting caller stays blocked: the edges are handled one
    after the other. *)
Lemma wait_write_edges (n : nat) :
  forall (k : nat) (edges rest : list gpio_env) (d : ps2_gpio_data),
    length edges = n ->
    mode d = PS2_GPIO_MODE_WRITE ->
    cur_write_pos d = Z.of_nat k ->
    (1 <= k)%nat -> (k + n <= 11)%nat ->
    sem_count (write_lock d) = 0%nat ->
    k_sem_take_timeout (edges ++ rest) d =
      k_sem_take_timeout rest
        (run_edges ps2_gpio_scl_interrupt_handler edges d).
Proof.
  induction n as [|n IH]; intros k edges rest d Hlen Hmode Hpos Hk Hkn Hsem.
  - destruct edges; [reflexivity | discriminate].
  - destruct edges as [|env edges]; [discriminate|].
    injection Hlen as Hlen.
    destruct (write_edge_progress env d Hmode ltac:(lia))
      as (Hm & Hp & Hl & _).
    cbn [app k_sem_take_timeout]. rewrite Hsem.
    unfold run_edges. cbn [fold_left].
    apply (IH (S k)); try assumption; try lia.
    rewrite Hl. exact Hsem.
Qed.

Lemma length_snoc {A : Type} (l : list A) (n : nat) :
  length l = S n -> exists l' x, l = l' ++ [x] /\ length l' = n.
Proof.
  intros Hlen.
  destruct (exists_last (l := l)) as (l' & x & ->).
  { intros ->. discriminate. }
  exists l', x. split; [reflexivity|].
  rewrite length_app in Hlen. cbn in Hlen. lia.
Qed.

(** The ten clock edges after a write was initiated: data and parity
    bits, the stop bit, and the data line made an input again. *)
Lemma write_ten_edges (edges : list gpio_env) (d : ps2_gpio_data) :
  length edges = 10%nat ->
  mode d = PS2_GPIO_MODE_WRITE ->
  cur_write_pos d = 1 ->
  run_edges ps2_gpio_scl_interrupt_handler edges d =
    set_cur_write_pos PS2_GPIO_POS_ACK
      (emit_all
         (map (fun i =>
                 GpioPinSet SCL
                   (PS2_GPIO_GET_BIT (write_buffer d) (Z.of_nat i)))
              (seq 1 10)
          ++ [GpioPinConfigure SDA GPIO_INPUT]) d).
Proof.
  intros Hlen Hmode Hpos.
  destruct (length_snoc edges 9 Hlen) as (bits & e_stop & -> & Hbits).
  unfold run_edges. rewrite fold_left_app. cbn [fold_left].
  fold (run_edges ps2_gpio_scl_interrupt_handler bits d).
  rewrite (write_bits_run 9 1 bits d Hbits Hmode Hpos) by lia.
  rewrite write_edge_stop; [| exact Hmode | reflexivity].
  unfold set_cur_write_pos, emit_all.
  cbn [callback_isr callback_enabled data_queue mode cur_read_byte
       cur_read_pos write_buffer cur_write_pos cur_write_status write_lock
       effects].
  rewrite <- app_assoc.
  change (seq 1 10) with (seq 1 9 ++ [10%nat]).
  rewrite map_app, <- app_assoc. reflexivity.
Qed.

Lemma pack_write_buffer_fixed_bits (b : Z) (p : bool) :
  0 <= b < 256 ->
  PS2_GPIO_GET_BIT (pack_write_buffer b p) 9 = Z.b2z p /\
  PS2_GPIO_GET_BIT (pack_write_buffer b p) 10 = 1.
Proof.
  intros Hb.
  assert (H : (PS2_GPIO_GET_BIT (pack_write_buffer b p) 9 =? Z.b2z p) &&
              (PS2_GPIO_GET_BIT (pack_write_buffer b p) 10 =? 1) = true).
  { apply (forallb_all_bytes
             (fun x =>
                (PS2_GPIO_GET_BIT (pack_write_buffer x p) 9 =? Z.b2z p) &&
                (PS2_GPIO_GET_BIT (pack_write_buffer x p) 10 =? 1)));
      [|exact Hb].
    destruct p; vm_compute; reflexivity. }
  apply andb_prop in H. destruct H as [H9 H10].
  split; apply Z.eqb_eq; assumption.
Qed.

(** Bits 1 to 10 of the packed frame are the levels of the frame. *)
Lemma pack_write_buffer_levels (b : Z) :
  0 <= b < 256 ->
  map (fun i =>
         PS2_GPIO_GET_BIT (pack_write_buffer b (ps2_gpio_get_byte_parity b))
           (Z.of_nat i)) (seq 1 10) =
  write_frame_levels b.
Proof.
  intros Hb.
  destruct (pack_write_buffer_fixed_bits b (ps2_gpio_get_byte_parity b) Hb)
    as [H9 H10].
  pose proof (pack_write_buffer_data_bits b (ps2_gpio_get_byte_parity b))
    as Hbits.
  unfold write_frame_levels. cbn [seq map app Z.of_nat Pos.of_succ_nat
                                  Pos.succ].
  rewrite H9, H10.
  rewrite <- (Hbits 0), <- (Hbits 1), <- (Hbits 2), <- (Hbits 3),
    <- (Hbits 4), <- (Hbits 5), <- (Hbits 6), <- (Hbits 7) by lia.
  reflexivity.
Qed.

(** ** Whole write transactions *)

Lemma write_byte_async_ok (env : gpio_env) (b : Z) (d : ps2_gpio_data) :
  configure_ok env ->
  ps2_gpio_write_byte_async env b d = (0, async_at_scl_input b d).
Proof.
  intros (E1 & E2 & E3). rewrite write_byte_async_stages, E1, E2, E3.
  reflexivity.
Qed.

Lemma async_at_scl_input_effects (b : Z) (d : ps2_gpio_data) :
  async_at_scl_input b d =
    emit_all
      [GpioPinConfigure SCL GPIO_OUTPUT_LOW; KSleepUsec 100;
       GpioPinConfigure SDA GPIO_OUTPUT_LOW; GpioPinSet SDA 1;
       GpioPinConfigure SCL GPIO_INPUT]
      (set_cur_write_pos 1
         (set_cur_read_pos 0
            (set_cur_read_byte 0
               (set_cur_write_status PS2_GPIO_WRITE_STATUS_ACTIVE
                  (set_mode PS2_GPIO_MODE_WRITE
                     (set_write_buffer
                        (pack_write_buffer b (ps2_gpio_get_byte_parity b))
                        (set_write_lock
                           (snd (k_sem_take_no_wait (write_lock d)))
                           d))))))).
Proof.
  destruct d.
  unfold async_at_scl_input, async_at_sda_low, async_at_scl_low,
    ps2_gpio_set_scl.
  cbv [emit emit_all set_cur_write_pos set_cur_read_pos set_cur_read_byte
       set_cur_write_status set_mode set_write_buffer set_write_lock
       callback_isr callback_enabled data_queue mode cur_read_byte
       cur_read_pos write_buffer cur_write_pos cur_write_status write_lock
       effects PS2_GPIO_POS_START].
  rewrite <- !app_assoc. reflexivity.
Qed.

Lemma levels_set_map_same (l : gpio_line) (vs : list Z) :
  levels_set l (map (GpioPinSet l) vs) = vs.
Proof.
  induction vs as [|v vs IH]; [reflexivity|].
  cbn [map]. change (GpioPinSet l v :: map (GpioPinSet l) vs)
    with ([GpioPinSet l v] ++ map (GpioPinSet l) vs).
  rewrite levels_set_app, IH. destruct l; reflexivity.
Qed.

(** The state ten clock edges after a successful initiation. *)
Lemma write_ten_edges_after_async (env : gpio_env) (b : Z)
    (edges : list gpio_env) (d : ps2_gpio_data) :
  0 <= b < 256 -> length edges = 10%nat ->
  run_edges ps2_gpio_scl_interrupt_handler edges (async_at_scl_input b d) =
    set_cur_write_pos PS2_GPIO_POS_ACK
      (emit_all
         (map (GpioPinSet SCL) (write_frame_levels b)
          ++ [GpioPinConfigure SDA GPIO_INPUT])
         (async_at_scl_input b d)).
Proof.
  intros Hb Hlen.
  rewrite write_ten_edges; [| exact Hlen | reflexivity | reflexivity].
  change (write_buffer (async_at_scl_input b d))
    with (pack_write_buffer b (ps2_gpio_get_byte_parity b)).
  rewrite <- (pack_write_buffer_levels b Hb), map_map. reflexivity.
Qed.

(** X2.  After an asynchronous write of a byte whose line configurations
    succeed, the next ten clock edges put out the eight data bits least
    significant first, the parity bit and the stop bit 1, one per edge,
    through [ps2_gpio_set_sda] (which sets the clock pin), and then make
    the data line an input; the write is still in progress with the
    cursor at the acknowledgment position.  The levels on the data line
    play no part. *)
Theorem write_clocks_out_frame (env : gpio_env) (b : Z)
    (edges : list gpio_env) (d : ps2_gpio_data)
    (Hb : 0 <= b < 256)
    (Hok : configure_ok env)
    (Hlen : length edges = 10%nat) :
  fst (ps2_gpio_write_byte_async env b d) = 0 /\
  effects (run_edges ps2_gpio_scl_interrupt_handler edges
             (snd (ps2_gpio_write_byte_async env b d))) =
    effects d ++
      [GpioPinConfigure SCL GPIO_OUTPUT_LOW; KSleepUsec 100;
       GpioPinConfigure SDA GPIO_OUTPUT_LOW; GpioPinSet SDA 1;
       GpioPinConfigure SCL GPIO_INPUT] ++
      map (GpioPinSet SCL) (write_frame_levels b) ++
      [GpioPinConfigure SDA GPIO_INPUT] /\
  levels_set SCL
    (effects (run_edges ps2_gpio_scl_interrupt_handler edges
                (snd (ps2_gpio_write_byte_async env b d)))) =
    levels_set SCL (effects d) ++ write_frame_levels b /\
  cur_write_pos (run_edges ps2_gpio_scl_interrupt_handler edges
                   (snd (ps2_gpio_write_byte_async env b d))) =
    PS2_GPIO_POS_ACK /\
  mode (run_edges ps2_gpio_scl_interrupt_handler edges
          (snd (ps2_gpio_write_byte_async env b d))) =
    PS2_GPIO_MODE_WRITE /\
  cur_write_status (run_edges ps2_gpio_scl_interrupt_handler edges
                      (snd (ps2_gpio_write_byte_async env b d))) =
    PS2_GPIO_WRITE_STATUS_ACTIVE.
Proof.
  rewrite (write_byte_async_ok env b d Hok). cbn [fst snd].
  rewrite (write_ten_edges_after_async env b edges d Hb Hlen).
  rewrite async_at_scl_input_effects.
  cbn [set_cur_write_pos emit_all set_cur_read_pos set_cur_read_byte
       set_cur_write_status set_mode set_write_buffer set_write_lock
       callback_isr callback_enabled data_queue mode cur_read_byte
       cur_read_pos write_buffer cur_write_pos cur_write_status write_lock
       effects].
  split; [reflexivity|]. split; [rewrite <- app_assoc; reflexivity|].
  split; [|repeat split; reflexivity].
  rewrite !levels_set_app, levels_set_map_same.
  cbn [levels_set flat_map app]. rewrite !app_nil_r. reflexivity.
Qed.

Lemma write_clocks_out_frame_witness :
  levels_set SCL
    (effects (run_edges ps2_gpio_scl_interrupt_handler
                (repeat (env_sda cfg_ok 1) 10)
                (snd (ps2_gpio_write_byte_async (env_sda cfg_ok 1) 0xf4
                        ps2_gpio_data_init)))) =
    [0; 0; 1; 0; 1; 1; 1; 1; 0; 1].
Proof.
  assert (Hb : 0 <= 0xf4 < 256) by lia.
  assert (Hok : configure_ok (env_sda cfg_ok 1))
    by (repeat split; reflexivity).
  exact (proj1 (proj2 (proj2
           (write_clocks_out_frame (env_sda cfg_ok 1) 0xf4
              (repeat (env_sda cfg_ok 1) 10) ps2_gpio_data_init
              Hb Hok eq_refl)))).
Defined.

Lemma k_sem_take_no_wait_binary (sem : k_sem) :
  (sem_count sem <= 1)%nat ->
  sem_count (snd (k_sem_take_no_wait sem)) = 0%nat /\
  sem_limit (snd (k_sem_take_no_wait sem)) = sem_limit sem.
Proof.
  intros Hc. unfold k_sem_take_no_wait.
  destruct (sem_count sem) as [|[|n]] eqn:E; cbn [snd sem_count sem_limit];
    try lia; auto.
Qed.

(** A caller waiting on the taken semaphore at the acknowledgment edge is
    woken by that edge and takes the unit the handler gave. *)
Lemma wait_for_ack (e_ack : gpio_env) (rest : list gpio_env)
    (d : ps2_gpio_data) :
  mode d = PS2_GPIO_MODE_WRITE ->
  cur_write_pos d = PS2_GPIO_POS_ACK ->
  sem_count (write_lock d) = 0%nat ->
  (1 <= sem_limit (write_lock d))%nat ->
  k_sem_take_timeout (e_ack :: rest) d =
    (0, set_write_lock (mk_sem 0 (sem_limit (write_lock d)))
          (set_cur_write_pos 1
             (ps2_gpio_scl_interrupt_handler_write_check_ack e_ack d))).
Proof.
  intros Hmode Hpos Hcount Hlimit.
  cbn [k_sem_take_timeout]. rewrite Hcount.
  rewrite write_edge_ack by assumption.
  assert (Hgiven :
    write_lock (set_cur_write_pos 1
                  (ps2_gpio_scl_interrupt_handler_write_check_ack e_ack d)) =
    mk_sem 1 (sem_limit (write_lock d))).
  { unfold ps2_gpio_scl_interrupt_handler_write_check_ack, k_sem_give.
    destruct (ps2_gpio_get_sda e_ack =? 0);
      cbn [emit set_write_lock set_cur_write_pos set_write_buffer set_mode
           set_cur_write_status write_lock];
      rewrite Hcount;
      destruct (sem_limit (write_lock d)); [lia | reflexivity
                                           | lia | reflexivity]. }
  destruct rest; cbn [k_sem_take_timeout]; rewrite Hgiven;
    cbn [sem_count sem_limit]; reflexivity.
Qed.

(** X3.  A blocking write of a byte, with the line configurations
    succeeding and the semaphore a binary one, that sees ten clock edges
    and then the acknowledgment edge returns 0 when the data line reads 0
    on that edge and -3 (the negated Failure status) for any other
    reading.  Either way the transaction is over: the mode is Read, the
    status Inactive, the write buffer cleared, the semaphore was given
    once and taken again by the caller, the frame of the byte went out
    through [ps2_gpio_set_sda], and no received byte was delivered. *)
Theorem write_blocking_completes (env e_ack : gpio_env) (b : Z)
    (edges rest : list gpio_env) (d : ps2_gpio_data)
    (Hb : 0 <= b < 256)
    (Hok : configure_ok env)
    (Hcount : (sem_count (write_lock d) <= 1)%nat)
    (Hlimit : (1 <= sem_limit (write_lock d))%nat)
    (Hlen : length edges = 10%nat) :
  fst (ps2_gpio_write env (edges ++ e_ack :: rest) b d) =
    (if ps2_gpio_get_sda e_ack =? 0 then 0 else -3) /\
  mode (snd (ps2_gpio_write env (edges ++ e_ack :: rest) b d)) =
    PS2_GPIO_MODE_READ /\
  cur_write_status (snd (ps2_gpio_write env (edges ++ e_ack :: rest) b d)) =
    PS2_GPIO_WRITE_STATUS_INACTIVE /\
  write_buffer (snd (ps2_gpio_write env (edges ++ e_ack :: rest) b d)) = 0 /\
  sem_count
    (write_lock (snd (ps2_gpio_write env (edges ++ e_ack :: rest) b d))) =
    0%nat /\
  sem_gives
    (effects (snd (ps2_gpio_write env (edges ++ e_ack :: rest) b d))) =
    S (sem_gives (effects d)) /\
  levels_set SCL
    (effects (snd (ps2_gpio_write env (edges ++ e_ack :: rest) b d))) =
    levels_set SCL (effects d) ++ write_frame_levels b /\
  delivered
    (effects (snd (ps2_gpio_write env (edges ++ e_ack :: rest) b d))) =
    delivered (effects d).
Proof.
  unfold ps2_gpio_write, ps2_gpio_write_byte_blocking.
  rewrite (write_byte_async_ok env b d Hok). cbn [Z.eqb negb].
  destruct (k_sem_take_no_wait_binary (write_lock d) Hcount)
    as [Htaken Hlim].
  rewrite (wait_write_edges 10 1 edges (e_ack :: rest)
             (async_at_scl_input b d) Hlen eq_refl eq_refl)
    by (try lia; exact Htaken).
  rewrite (write_ten_edges_after_async env b edges d Hb Hlen).
  rewrite wait_for_ack;
    [| reflexivity | reflexivity | exact Htaken
     | change (1 <= sem_limit (snd (k_sem_take_no_wait (write_lock d))))%nat;
       rewrite Hlim; exact Hlimit].
  unfold write_byte_blocking_after_take. cbn [Z.eqb negb].
  unfold write_byte_blocking_finish,
    ps2_gpio_scl_interrupt_handler_write_check_ack.
  rewrite async_at_scl_input_effects.
  destruct (ps2_gpio_get_sda e_ack =? 0);
    cbn [fst snd emit emit_all set_write_lock set_cur_write_pos
         set_write_buffer set_mode set_cur_write_status set_cur_read_pos
         set_cur_read_byte callback_isr callback_enabled data_queue mode
         cur_read_byte cur_read_pos write_buffer cur_write_pos
         cur_write_status write_lock effects sem_count sem_limit
         write_status_eqb write_status_value Z.eqb Pos.eqb];
    rewrite !sem_gives_app, !levels_set_app, !delivered_app,
      levels_set_map_same;
    cbn [sem_gives filter length levels_set delivered flat_map app map];
    rewrite ?app_nil_r, ?Nat.add_0_r;
    (repeat split; try reflexivity).
  all: rewrite Nat.add_1_r; reflexivity.
Qed.

Lemma write_blocking_completes_witness :
  fst (ps2_gpio_write (env_sda cfg_ok 1)
         (repeat (env_sda cfg_ok 1) 10 ++ env_sda cfg_ok 0 :: []) 0xf4
         ps2_gpio_data_init) = 0 /\
  fst (ps2_gpio_write (env_sda cfg_ok 1)
         (repeat (env_sda cfg_ok 1) 10 ++ env_sda cfg_ok 1 :: []) 0xf4
         ps2_gpio_data_init) = -3.
Proof.
  assert (Hb : 0 <= 0xf4 < 256) by lia.
  assert (Hok : configure_ok (env_sda cfg_ok 1))
    by (repeat split; reflexivity).
  assert (Hc : (sem_count (write_lock ps2_gpio_data_init) <= 1)%nat)
    by (cbn; lia).
  assert (Hl : (1 <= sem_limit (write_lock ps2_gpio_data_init))%nat)
    by (cbn; lia).
  split.
  - exact (proj1 (write_blocking_completes (env_sda cfg_ok 1)
                    (env_sda cfg_ok 0) 0xf4 (repeat (env_sda cfg_ok 1) 10)
                    [] ps2_gpio_data_init Hb Hok Hc Hl eq_refl)).
  - exact (proj1 (write_blocking_completes (env_sda cfg_ok 1)
                    (env_sda cfg_ok 1) 0xf4 (repeat (env_sda cfg_ok 1) 10)
                    [] ps2_gpio_data_init Hb Hok Hc Hl eq_refl)).
Defined.

(** X4.  A blocking write that sees at most ten clock edges before the
    timeout returns [-EAGAIN] and leaves the transaction in flight: the
    mode is still Write, the status Active, the cursor one past the
    number of edges seen, and the semaphore taken and not given. *)
Theorem write_blocking_times_out (env : gpio_env) (b : Z)
    (edges : list gpio_env) (d : ps2_gpio_data)
    (Hok : configure_ok env)
    (Hcount : (sem_count (write_lock d) <= 1)%nat)
    (Hlen : (length edges <= 10)%nat) :
  fst (ps2_gpio_write env edges b d) = - EAGAIN /\
  mode (snd (ps2_gpio_write env edges b d)) = PS2_GPIO_MODE_WRITE /\
  cur_write_status (snd (ps2_gpio_write env edges b d)) =
    PS2_GPIO_WRITE_STATUS_ACTIVE /\
  cur_write_pos (snd (ps2_gpio_write env edges b d)) =
    1 + Z.of_nat (length edges) /\
  sem_count (write_lock (snd (ps2_gpio_write env edges b d))) = 0%nat /\
  sem_gives (effects (snd (ps2_gpio_write env edges b d))) =
    sem_gives (effects d).
Proof.
  unfold ps2_gpio_write, ps2_gpio_write_byte_blocking.
  rewrite (write_byte_async_ok env b d Hok). cbn [Z.eqb negb].
  destruct (k_sem_take_no_wait_binary (write_lock d) Hcount)
    as [Htaken _].
  destruct (write_progress_run (length edges) 1 edges
              (async_at_scl_input b d) eq_refl eq_refl eq_refl
              ltac:(lia) ltac:(lia)) as (Hm & Hp & Hl & Hs & Hg).
  assert (Hwait :
    k_sem_take_timeout edges (async_at_scl_input b d) =
    (- EAGAIN,
     run_edges ps2_gpio_scl_interrupt_handler edges
       (async_at_scl_input b d))).
  { rewrite <- (app_nil_r edges) at 1.
    rewrite (wait_write_edges (length edges) 1 edges []
               (async_at_scl_input b d) eq_refl eq_refl eq_refl)
      by (try lia; exact Htaken).
    cbn [k_sem_take_timeout]. rewrite Hl.
    change (sem_count (write_lock (async_at_scl_input b d)))
      with (sem_count (snd (k_sem_take_no_wait (write_lock d)))).
    rewrite Htaken. reflexivity. }
  rewrite Hwait. unfold write_byte_blocking_after_take.
  cbn [fst snd EAGAIN Z.opp Z.eqb negb].
  rewrite Hm, Hp, Hl, Hs, Hg.
  split; [reflexivity|]. split; [reflexivity|]. split; [reflexivity|].
  split; [lia|]. split; [exact Htaken|].
  rewrite async_at_scl_input_effects. cbn [emit_all effects].
  cbn [set_cur_write_pos set_cur_read_pos set_cur_read_byte
       set_cur_write_status set_mode set_write_buffer set_write_lock
       effects].
  rewrite sem_gives_app. cbn [sem_gives filter length]. lia.
Qed.

Lemma write_blocking_times_out_witness :
  fst (ps2_gpio_write (env_sda cfg_ok 1) (repeat (env_sda cfg_ok 0) 7) 0xf4
         ps2_gpio_data_init) = - EAGAIN /\
  cur_write_pos
    (snd (ps2_gpio_write (env_sda cfg_ok 1) (repeat (env_sda cfg_ok 0) 7)
            0xf4 ps2_gpio_data_init)) = 8.
Proof.
  assert (Hok : configure_ok (env_sda cfg_ok 1))
    by (repeat split; reflexivity).
  assert (Hc : (sem_count (write_lock ps2_gpio_data_init) <= 1)%nat)
    by (cbn; lia).
  assert (Hlen : (length (repeat (env_sda cfg_ok 0) 7) <= 10)%nat)
    by (cbn; lia).
  pose proof (write_blocking_times_out (env_sda cfg_ok 1) 0xf4
                (repeat (env_sda cfg_ok 0) 7) ps2_gpio_data_init
                Hok Hc Hlen) as (Hret & _ & _ & Hpos & _).
  split; [exact Hret | exact Hpos].
Defined.

(** ** A write that could not be initiated *)

Lemma write_start_ignores_edges (edges : list gpio_env) :
  forall d : ps2_gpio_data,
    mode d = PS2_GPIO_MODE_WRITE -> cur_write_pos d = PS2_GPIO_POS_START ->
    run_edges ps2_gpio_scl_interrupt_handler edges d = d.
Proof.
  induction edges as [|env edges IH]; intros d Hmode Hpos; [reflexivity|].
  unfold run_edges in *. cbn [fold_left].
  rewrite write_edge_ignored by assumption. apply IH; assumption.
Qed.

(** X5.  When an asynchronous write fails at the first or the second
    line configuration (clock low, data low), the driver is left in
    Write mode with the cursor at the start position, where the interrupt
    handler ignores every clock edge: whatever edges follow, the state
    does not change, so nothing is received and nothing is sent until a
    later write starts over. *)
Theorem write_failed_initiation_ignores_edges (env : gpio_env) (b : Z)
    (edges : list gpio_env) (d : ps2_gpio_data)
    (Hfail : gpio_pin_configure env SCL GPIO_OUTPUT_LOW <> 0 \/
             gpio_pin_configure env SDA GPIO_OUTPUT_LOW <> 0) :
  fst (ps2_gpio_write_byte_async env b d) <> 0 /\
  mode (snd (ps2_gpio_write_byte_async env b d)) = PS2_GPIO_MODE_WRITE /\
  cur_write_pos (snd (ps2_gpio_write_byte_async env b d)) =
    PS2_GPIO_POS_START /\
  run_edges ps2_gpio_scl_interrupt_handler edges
    (snd (ps2_gpio_write_byte_async env b d)) =
    snd (ps2_gpio_write_byte_async env b d).
Proof.
  assert (H : fst (ps2_gpio_write_byte_async env b d) <> 0 /\
              mode (snd (ps2_gpio_write_byte_async env b d)) =
                PS2_GPIO_MODE_WRITE /\
              cur_write_pos (snd (ps2_gpio_write_byte_async env b d)) =
                PS2_GPIO_POS_START).
  { rewrite write_byte_async_stages.
    destruct (Z.eqb_spec (gpio_pin_configure env SCL GPIO_OUTPUT_LOW) 0)
      as [E1|E1]; cbn [negb fst snd].
    - destruct (Z.eqb_spec (gpio_pin_configure env SDA GPIO_OUTPUT_LOW) 0)
        as [E2|E2]; cbn [negb fst snd].
      + destruct Hfail; contradiction.
      + repeat split; try reflexivity; exact E2.
    - repeat split; try reflexivity; exact E1. }
  destruct H as (Herr & Hmode & Hpos).
  repeat split; try assumption.
  apply write_start_ignores_edges; assumption.
Qed.

Lemma write_failed_initiation_ignores_edges_witness :
  data_queue
    (run_edges ps2_gpio_scl_interrupt_handler
       (map (env_sda cfg_ok) (read_frame 0x45))
       (snd (ps2_gpio_write_byte_async
               (env_sda (cfg_fail_at SCL GPIO_OUTPUT_LOW (-5)) 1) 0xf4
               ps2_gpio_data_init))) = [].
Proof.
  assert (Hfail :
    gpio_pin_configure (env_sda (cfg_fail_at SCL GPIO_OUTPUT_LOW (-5)) 1)
      SCL GPIO_OUTPUT_LOW <> 0 \/
    gpio_pin_configure (env_sda (cfg_fail_at SCL GPIO_OUTPUT_LOW (-5)) 1)
      SDA GPIO_OUTPUT_LOW <> 0) by (left; discriminate).
  pose proof (write_failed_initiation_ignores_edges
                (env_sda (cfg_fail_at SCL GPIO_OUTPUT_LOW (-5)) 1) 0xf4
                (map (env_sda cfg_ok) (read_frame 0x45))
                ps2_gpio_data_init Hfail) as (_ & _ & _ & Hrun).
  rewrite Hrun. reflexivity.
Defined.

(** ** Ranges of the fields *)

Lemma to_uint8_range (z : Z) : 0 <= to_uint8 z < 256.
Proof.
  unfold to_uint8. change 0xff with (Z.ones 8).
  rewrite Z.land_ones by lia. apply Z.mod_pos_bound. reflexivity.
Qed.

Lemma to_uint16_range (z : Z) : 0 <= to_uint16 z < 65536.
Proof.
  unfold to_uint16. change 0xffff with (Z.ones 16).
  rewrite Z.land_ones by lia. apply Z.mod_pos_bound. reflexivity.
Qed.

Lemma pack_write_buffer_range (b : Z) (p : bool) :
  0 <= pack_write_buffer b p < 65536.
Proof. unfold pack_write_buffer. cbv zeta. apply to_uint16_range. Qed.

Lemma k_sem_take_no_wait_range (sem : k_sem) :
  (sem_count sem <= sem_limit sem)%nat ->
  (sem_count (snd (k_sem_take_no_wait sem)) <=
   sem_limit (snd (k_sem_take_no_wait sem)))%nat.
Proof.
  unfold k_sem_take_no_wait. destruct (sem_count sem) eqn:E;
    cbn [snd sem_count sem_limit]; lia.
Qed.

Lemma k_sem_give_range (sem : k_sem) :
  (sem_count sem <= sem_limit sem)%nat ->
  (sem_count (k_sem_give sem) <= sem_limit (k_sem_give sem))%nat.
Proof.
  unfold k_sem_give. destruct (Nat.ltb_spec (sem_count sem) (sem_limit sem));
    cbn [sem_count sem_limit]; lia.
Qed.

Lemma write_byte_async_in_range (env : gpio_env) (b : Z)
    (d : ps2_gpio_data) :
  state_in_range d -> state_in_range (snd (ps2_gpio_write_byte_async env b d)).
Proof.
  intros (Hrp & Hrb & Hwp & Hwb & Hsem).
  pose proof (pack_write_buffer_range b (ps2_gpio_get_byte_parity b)) as Hp.
  pose proof (k_sem_take_no_wait_range (write_lock d) Hsem) as Ht.
  unfold state_in_range, PS2_GPIO_POS_STOP, PS2_GPIO_POS_ACK in *.
  async_cases env; unfold PS2_GPIO_POS_START;
    repeat split; try lia; try assumption.
Qed.

Lemma abort_read_in_range (env : gpio_env) (d : ps2_gpio_data) :
  state_in_range d -> state_in_range (ps2_gpio_abort_read env d).
Proof.
  intros Hd.
  destruct (write_byte_async_in_range env PS2_CMD_RESEND d Hd)
    as (_ & _ & Hwp & Hwb & Hsem).
  unfold ps2_gpio_abort_read, ps2_gpio_send_cmd_resend, state_in_range,
    PS2_GPIO_POS_STOP, PS2_GPIO_POS_START in *.
  cbn [set_cur_read_byte set_cur_read_pos cur_read_pos cur_read_byte
       cur_write_pos write_buffer write_lock].
  repeat split; try lia; assumption.
Qed.

Lemma interrupt_handler_read_in_range (env : gpio_env) (d : ps2_gpio_data) :
  state_in_range d ->
  state_in_range (ps2_gpio_scl_interrupt_handler_read env d).
Proof.
  intros Hd. pose proof (abort_read_in_range env d Hd) as Habort.
  destruct Hd as (Hrp & Hrb & Hwp & Hwb & Hsem).
  unfold ps2_gpio_scl_interrupt_handler_read,
    PS2_GPIO_POS_START, PS2_GPIO_POS_PARITY, PS2_GPIO_POS_STOP,
    PS2_GPIO_POS_ACK in *.
  destruct (Z.eqb_spec (cur_read_pos d) 0) as [E0|E0].
  { destruct (negb _); [exact Habort|].
    unfold state_in_range, PS2_GPIO_POS_STOP, PS2_GPIO_POS_ACK.
    cbn [set_cur_read_pos cur_read_pos cur_read_byte cur_write_pos
         write_buffer write_lock].
    rewrite to_int_small by lia. repeat split; try lia; assumption. }
  destruct (Z.eqb_spec (cur_read_pos d) 9) as [E9|E9].
  { destruct (negb _); [exact Habort|].
    unfold state_in_range, PS2_GPIO_POS_STOP, PS2_GPIO_POS_ACK.
    cbn [set_cur_read_pos cur_read_pos cur_read_byte cur_write_pos
         write_buffer write_lock].
    rewrite to_int_small by lia. repeat split; try lia; assumption. }
  destruct (Z.eqb_spec (cur_read_pos d) 10) as [E10|E10].
  { destruct (negb _); [exact Habort|].
    unfold state_in_range, ps2_gpio_process_received_byte, k_fifo_put,
      PS2_GPIO_POS_STOP, PS2_GPIO_POS_ACK.
    destruct (_ && _);
      cbn [emit set_data_queue set_cur_read_pos set_cur_read_byte
           cur_read_pos cur_read_byte cur_write_pos write_buffer write_lock];
      repeat split; try lia; assumption. }
  unfold state_in_range, PS2_GPIO_POS_STOP, PS2_GPIO_POS_ACK.
  cbn [set_cur_read_pos set_cur_read_byte cur_read_pos cur_read_byte
       cur_write_pos write_buffer write_lock].
  rewrite (to_int_small (cur_read_pos d + 1)) by lia.
  pose proof (to_uint8_range
                (PS2_GPIO_SET_BIT (cur_read_byte d) (ps2_gpio_get_sda env)
                   (to_int (cur_read_pos d - 1)))).
  repeat split; try lia; assumption.
Qed.

Lemma interrupt_handler_write_in_range (env : gpio_env) (d : ps2_gpio_data) :
  state_in_range d ->
  state_in_range (ps2_gpio_scl_interrupt_handler_write env d).
Proof.
  intros Hd. pose proof Hd as (Hrp & Hrb & Hwp & Hwb & Hsem).
  pose proof (k_sem_give_range (write_lock d) Hsem) as Hgive.
  unfold ps2_gpio_scl_interrupt_handler_write,
    PS2_GPIO_POS_START, PS2_GPIO_POS_STOP, PS2_GPIO_POS_ACK in *.
  destruct (Z.eqb_spec (cur_write_pos d) 0) as [E0|E0]; [exact Hd|].
  unfold state_in_range, ps2_gpio_scl_interrupt_handler_write_check_ack,
    ps2_gpio_scl_interrupt_handler_write_send_bit, ps2_gpio_set_sda,
    call_gpio_pin_configure, PS2_GPIO_POS_START, PS2_GPIO_POS_STOP,
    PS2_GPIO_POS_ACK.
  destruct (Z.eqb_spec (cur_write_pos d) 10) as [E10|E10];
    [|destruct (Z.eqb_spec (cur_write_pos d) 11) as [E11|E11];
      [destruct (ps2_gpio_get_sda env =? 0)|]];
    cbn [snd emit set_write_lock set_write_buffer set_mode set_cur_write_pos
         set_cur_write_status cur_read_pos cur_read_byte cur_write_pos
         write_buffer write_lock];
    rewrite to_int_small by lia; repeat split; try lia; assumption.
Qed.

Lemma interrupt_handler_in_range (env : gpio_env) (d : ps2_gpio_data) :
  state_in_range d -> state_in_range (ps2_gpio_scl_interrupt_handler env d).
Proof.
  intros Hd. unfold ps2_gpio_scl_interrupt_handler.
  destruct (mode_eqb _ _);
    [apply interrupt_handler_read_in_range
    |apply interrupt_handler_write_in_range]; exact Hd.
Qed.

Lemma k_sem_take_timeout_in_range (edges : list gpio_env) :
  forall d : ps2_gpio_data,
    state_in_range d -> state_in_range (snd (k_sem_take_timeout edges d)).
Proof.
  induction edges as [|env edges IH]; intros d Hd; cbn [k_sem_take_timeout];
    destruct (sem_count (write_lock d)) eqn:E; cbn [snd];
    try exact Hd;
    try (destruct Hd as (Hrp & Hrb & Hwp & Hwb & Hsem);
         unfold state_in_range;
         cbn [set_write_lock cur_read_pos cur_read_byte cur_write_pos
              write_buffer write_lock sem_count sem_limit];
         repeat split; try lia; assumption).
  apply IH, interrupt_handler_in_range, Hd.
Qed.

Lemma k_fifo_get_timeout_in_range (edges : list gpio_env) :
  forall d : ps2_gpio_data,
    state_in_range d -> state_in_range (snd (k_fifo_get_timeout edges d)).
Proof.
  induction edges as [|env edges IH]; intros d Hd; cbn [k_fifo_get_timeout];
    destruct (data_queue d); cbn [snd]; try exact Hd.
  apply IH, interrupt_handler_in_range, Hd.
Qed.

Lemma write_byte_blocking_in_range (env : gpio_env) (edges : list gpio_env)
    (b : Z) (d : ps2_gpio_data) :
  state_in_range d ->
  state_in_range (snd (ps2_gpio_write_byte_blocking env edges b d)).
Proof.
  intros Hd. unfold ps2_gpio_write_byte_blocking.
  pose proof (write_byte_async_in_range env b d Hd) as Ha.
  destruct (ps2_gpio_write_byte_async env b d) as [err d1]. cbn [snd] in Ha.
  destruct (negb (err =? 0)); [exact Ha|].
  pose proof (k_sem_take_timeout_in_range edges d1 Ha) as Hw.
  destruct (k_sem_take_timeout edges d1) as [werr d2]. cbn [snd] in Hw.
  unfold write_byte_blocking_after_take, write_byte_blocking_finish.
  destruct (negb (werr =? 0)); exact Hw.
Qed.

(** X6.  The ranges of the fields are kept by every entry point of the
    driver: from a state whose read cursor is in 0..10, whose accumulator
    is a byte, whose write cursor is in 0..11, whose write buffer fits
    sixteen bits and whose semaphore is within its limit, the interrupt
    handler, the asynchronous and the blocking write, the polling read,
    the callback switches, the configuration and the initialisation all
    end in such a state again.  So the cursor increments never overflow
    and no shift amount leaves 0..11. *)
Theorem state_in_range_kept (d : ps2_gpio_data) (Hd : state_in_range d) :
  (forall env, state_in_range (ps2_gpio_scl_interrupt_handler env d)) /\
  (forall env b, state_in_range (snd (ps2_gpio_write_byte_async env b d))) /\
  (forall env edges b, state_in_range (snd (ps2_gpio_write env edges b d))) /\
  (forall stale edges v,
     state_in_range (snd (ps2_gpio_read stale edges v d))) /\
  state_in_range (snd (ps2_gpio_enable_callback d)) /\
  state_in_range (snd (ps2_gpio_disable_callback d)) /\
  (forall cb, state_in_range (snd (ps2_gpio_configure cb d))) /\
  (forall ienv, state_in_range (snd (ps2_gpio_init ienv d))).
Proof.
  split; [intros; apply interrupt_handler_in_range, Hd|].
  split; [intros; apply write_byte_async_in_range, Hd|].
  split; [intros; apply write_byte_blocking_in_range, Hd|].
  split.
  { intros stale edges v. unfold ps2_gpio_read.
    pose proof (k_fifo_get_timeout_in_range edges d Hd) as H.
    destruct (k_fifo_get_timeout edges d) as [[[]|] d1]; exact H. }
  split; [exact Hd|]. split; [exact Hd|].
  split; [intros [f|]; exact Hd|].
  intros ienv. destruct Hd as (Hrp & Hrb & Hwp & Hwb & Hsem).
  unfold ps2_gpio_init, ps2_gpio_configure_scl_pin,
    ps2_gpio_configure_sda_pin, call_gpio_pin_configure, ps2_gpio_set_sda,
    ps2_gpio_set_scl, state_in_range.
  repeat match goal with
         | |- context [if ?c then _ else _] => destruct c
         end;
    cbn [snd emit set_data_queue set_write_lock cur_read_pos cur_read_byte
         cur_write_pos write_buffer write_lock k_sem_init sem_count
         sem_limit];
    repeat split; try lia; assumption.
Qed.

Lemma state_in_range_kept_witness :
  state_in_range ps2_gpio_data_static /\
  state_in_range
    (ps2_gpio_scl_interrupt_handler (env_sda cfg_ok 1) ps2_gpio_data_static).
Proof.
  assert (H : state_in_range ps2_gpio_data_static)
    by (unfold state_in_range, ps2_gpio_data_static, PS2_GPIO_POS_STOP,
          PS2_GPIO_POS_ACK;
        cbn [cur_read_pos cur_read_byte cur_write_pos write_buffer
             write_lock sem_count sem_limit];
        repeat split; lia).
  split; [exact H|].
  exact (proj1 (state_in_range_kept ps2_gpio_data_static H)
           (env_sda cfg_ok 1)).
Defined.

(** ** Whole received frames *)

(** X7.  The parity check compares the line value with GCC's parity of
    the byte and reports a match whenever they differ.  So a value that
    is not a bit at all, such as a negative error code of the line read,
    passes the check for every byte, and at the parity position the
    receive handler accepts it and moves on to the stop bit. *)
Theorem parity_check_accepts_non_bit (b v : Z) (env : gpio_env)
    (d : ps2_gpio_data)
    (Hv : v <> 0 /\ v <> 1)
    (Hpos : cur_read_pos d = PS2_GPIO_POS_PARITY)
    (Hsda : ps2_gpio_get_sda env = v) :
  ps2_gpio_check_parity b v = true /\
  (forall w, ps2_gpio_check_parity b w = true <-> w <> builtin_parity b) /\
  ps2_gpio_scl_interrupt_handler_read env d =
    set_cur_read_pos PS2_GPIO_POS_STOP d.
Proof.
  assert (Hiff : forall x w,
            ps2_gpio_check_parity x w = true <-> w <> builtin_parity x).
  { intros x w. unfold ps2_gpio_check_parity.
    destruct (Z.eqb_spec (builtin_parity x) w); split; intros H;
      congruence. }
  assert (Hany : forall x, ps2_gpio_check_parity x v = true).
  { intros x. apply Hiff.
    destruct (builtin_parity_bit x) as [-> | ->]; tauto. }
  split; [apply Hany|]. split; [apply Hiff|].
  apply read_edge_parity; [exact Hpos | rewrite Hsda; apply Hany].
Qed.

Lemma parity_check_accepts_non_bit_witness :
  ps2_gpio_check_parity 0x45 (-5) = true /\
  cur_read_pos
    (ps2_gpio_scl_interrupt_handler_read (env_sda cfg_ok (-5))
       (set_cur_read_pos 9 (set_cur_read_byte 0x45 ps2_gpio_data_init)))
    = 10.
Proof.
  assert (Hv : -5 <> 0 /\ -5 <> 1) by (split; discriminate).
  pose proof (parity_check_accepts_non_bit 0x45 (-5) (env_sda cfg_ok (-5))
                (set_cur_read_pos 9
                   (set_cur_read_byte 0x45 ps2_gpio_data_init))
                Hv eq_refl eq_refl) as (Hchk & _ & Hrun).
  split; [exact Hchk | rewrite Hrun; reflexivity].
Defined.

(** The data bits of a frame through the interrupt handler in Read
    mode. *)
Lemma read_bits_dispatch (b : Z) (n : nat) :
  forall (k : nat) (edges : list gpio_env) (d : ps2_gpio_data),
    (k + n = 8)%nat ->
    mode d = PS2_GPIO_MODE_READ ->
    cur_read_pos d = Z.of_nat (S k) ->
    map ps2_gpio_get_sda edges =
      map (fun i => PS2_GPIO_GET_BIT b (Z.of_nat i)) (seq k n) ->
    run_edges ps2_gpio_scl_interrupt_handler edges d =
      set_cur_read_pos 9
        (set_cur_read_byte
           (fold_left (read_bit_step b) (seq k n) (cur_read_byte d)) d).
Proof.
  induction n as [|n IH]; intros k edges d Hk Hmode Hpos Hmap.
  - destruct edges; [|discriminate].
    assert (k = 8%nat) by lia. subst k.
    destruct d. cbn in *. subst. reflexivity.
  - destruct edges as [|env edges]; [discriminate|].
    cbn [map seq] in Hmap. injection Hmap as Hsda Hmap.
    unfold run_edges in *. cbn [fold_left].
    rewrite dispatch_read by exact Hmode.
    rewrite read_edge_data by lia.
    rewrite (IH (S k)); [| lia | exact Hmode
                        | cbn [set_cur_read_pos cur_read_pos]; lia
                        | exact Hmap].
    rewrite Hsda, Hpos.
    replace (Z.of_nat (S k) - 1) with (Z.of_nat k) by lia.
    cbn [set_cur_read_pos set_cur_read_byte cur_read_byte seq fold_left].
    reflexivity.
Qed.

(** Start bit and data bits of a frame: the byte is in the accumulator
    and the cursor at the parity position. *)
Lemma read_frame_head (b : Z) (edges : list gpio_env) (d : ps2_gpio_data) :
  0 <= b < 256 ->
  mode d = PS2_GPIO_MODE_READ ->
  cur_read_pos d = 0 -> cur_read_byte d = 0 ->
  map ps2_gpio_get_sda edges =
    0 :: map (fun i => PS2_GPIO_GET_BIT b (Z.of_nat i)) (seq 0 8) ->
  run_edges ps2_gpio_scl_interrupt_handler edges d =
    set_cur_read_pos 9 (set_cur_read_byte b d).
Proof.
  intros Hb Hmode Hpos Hbyte Hmap.
  apply map_eq_cons in Hmap.
  destruct Hmap as (e0 & bits & -> & Hstart & Hbits).
  unfold run_edges. cbn [fold_left].
  rewrite dispatch_read by exact Hmode.
  rewrite read_edge_start by assumption.
  fold (run_edges ps2_gpio_scl_interrupt_handler bits
          (set_cur_read_pos 1 d)).
  rewrite (read_bits_dispatch b 8 0 bits (set_cur_read_pos 1 d));
    [| reflexivity | exact Hmode | reflexivity | exact Hbits].
  cbn [set_cur_read_pos cur_read_byte]. rewrite Hbyte.
  fold (accumulate_bits b). rewrite accumulate_bits_byte by exact Hb.
  reflexivity.
Qed.

(** A whole valid frame in Read mode is the delivery of its byte. *)
Lemma read_frame_dispatch (b : Z) (edges : list gpio_env)
    (d : ps2_gpio_data) :
  0 <= b < 256 ->
  mode d = PS2_GPIO_MODE_READ ->
  cur_read_pos d = 0 -> cur_read_byte d = 0 ->
  map ps2_gpio_get_sda edges = read_frame b ->
  run_edges ps2_gpio_scl_interrupt_handler edges d =
    ps2_gpio_process_received_byte b d.
Proof.
  intros Hb Hmode Hpos Hbyte Hframe.
  unfold read_frame in Hframe.
  rewrite app_comm_cons in Hframe.
  apply map_eq_app in Hframe.
  destruct Hframe as (head & tail & -> & Hhead & Htail).
  destruct tail as [|e9 [|e10 [|]]]; try discriminate.
  cbn [map] in Htail. injection Htail as Hpar Hstop.
  unfold run_edges. rewrite fold_left_app.
  fold (run_edges ps2_gpio_scl_interrupt_handler head d).
  rewrite (read_frame_head b head d Hb Hmode Hpos Hbyte Hhead).
  cbn [fold_left].
  rewrite (dispatch_read e9) by exact Hmode.
  rewrite (read_edge_parity e9);
    [| reflexivity
     | cbn [set_cur_read_pos set_cur_read_byte cur_read_byte];
       rewrite Hpar; apply check_parity_accepts].
  rewrite (dispatch_read e10) by exact Hmode.
  rewrite (read_edge_stop e10); [| reflexivity | exact Hstop].
  cbn [set_cur_read_pos set_cur_read_byte cur_read_byte].
  destruct d. cbn in Hpos, Hbyte. subst.
  unfold ps2_gpio_process_received_byte, k_fifo_put.
  cbn [callback_isr callback_enabled set_cur_read_pos set_cur_read_byte].
  destruct (_ && _); reflexivity.
Qed.

(** X8.  A frame with a valid start bit and the eight data bits of any
    byte but the inverted parity bit is dropped at the parity edge: no
    byte reaches the callback or the queue, the read cursor and the
    accumulator are back at 0, and the resend command 0xfe has been
    packed and the mode set to Write. *)
Theorem read_bad_parity_frame_dropped (b : Z) (edges : list gpio_env)
    (d : ps2_gpio_data)
    (Hb : 0 <= b < 256)
    (Hmode : mode d = PS2_GPIO_MODE_READ)
    (Hpos : cur_read_pos d = 0)
    (Hbyte : cur_read_byte d = 0)
    (Hframe : map ps2_gpio_get_sda edges = bad_parity_frame b) :
  delivered (effects (run_edges ps2_gpio_scl_interrupt_handler edges d)) =
    delivered (effects d) /\
  data_queue (run_edges ps2_gpio_scl_interrupt_handler edges d) =
    data_queue d /\
  cur_read_pos (run_edges ps2_gpio_scl_interrupt_handler edges d) = 0 /\
  cur_read_byte (run_edges ps2_gpio_scl_interrupt_handler edges d) = 0 /\
  mode (run_edges ps2_gpio_scl_interrupt_handler edges d) =
    PS2_GPIO_MODE_WRITE /\
  write_buffer (run_edges ps2_gpio_scl_interrupt_handler edges d) =
    pack_write_buffer 0xfe (ps2_gpio_get_byte_parity 0xfe).
Proof.
  unfold bad_parity_frame in Hframe.
  rewrite app_comm_cons in Hframe.
  apply map_eq_app in Hframe.
  destruct Hframe as (head & tail & -> & Hhead & Htail).
  destruct tail as [|e9 [|]]; try discriminate.
  cbn [map] in Htail. injection Htail as Hpar.
  unfold run_edges. rewrite fold_left_app.
  fold (run_edges ps2_gpio_scl_interrupt_handler head d).
  rewrite (read_frame_head b head d Hb Hmode Hpos Hbyte Hhead).
  cbn [fold_left].
  rewrite (dispatch_read e9) by exact Hmode.
  rewrite read_edge_failure.
  2:{ right; left. split; [reflexivity|].
      cbn [set_cur_read_pos set_cur_read_byte cur_read_byte].
      rewrite Hpar. apply check_parity_rejects_flipped. }
  unfold ps2_gpio_abort_read, ps2_gpio_send_cmd_resend, PS2_CMD_RESEND.
  destruct (write_byte_async_frame e9 0xfe
              (set_cur_read_pos 9 (set_cur_read_byte b d)))
    as (Hdel & _ & Hq & _).
  cbn [set_cur_read_byte set_cur_read_pos cur_read_pos cur_read_byte
       write_buffer mode effects data_queue] in *.
  split; [exact Hdel|]. split; [exact Hq|].
  split; [reflexivity|]. split; [reflexivity|].
  split; async_cases e9; reflexivity.
Qed.

Lemma read_bad_parity_frame_dropped_witness :
  delivered
    (effects (run_edges ps2_gpio_scl_interrupt_handler
                (map (env_sda cfg_ok) (bad_parity_frame 0x45))
                ps2_gpio_data_init)) = [] /\
  mode (run_edges ps2_gpio_scl_interrupt_handler
          (map (env_sda cfg_ok) (bad_parity_frame 0x45))
          ps2_gpio_data_init) = PS2_GPIO_MODE_WRITE.
Proof.
  assert (Hb : 0 <= 0x45 < 256) by lia.
  pose proof (read_bad_parity_frame_dropped 0x45
                (map (env_sda cfg_ok) (bad_parity_frame 0x45))
                ps2_gpio_data_init Hb eq_refl eq_refl eq_refl eq_refl)
    as (Hdel & _ & _ & _ & Hmode & _).
  split; [exact Hdel | exact Hmode].
Defined.

(** ** Several frames in a row *)

(** Delivering a byte touches only the queue and the effects. *)
Lemma process_received_byte_frame (b : Z) (d : ps2_gpio_data) :
  mode (ps2_gpio_process_received_byte b d) = mode d /\
  cur_read_pos (ps2_gpio_process_received_byte b d) = cur_read_pos d /\
  cur_read_byte (ps2_gpio_process_received_byte b d) = cur_read_byte d /\
  callback_isr (ps2_gpio_process_received_byte b d) = callback_isr d /\
  callback_enabled (ps2_gpio_process_received_byte b d) =
    callback_enabled d.
Proof.
  unfold ps2_gpio_process_received_byte, k_fifo_put.
  destruct (_ && _); repeat split; reflexivity.
Qed.

(** The frames of several bytes, one after the other, in Read mode. *)
Lemma read_frames_dispatch (bytes : list Z) :
  forall (edges : list gpio_env) (d : ps2_gpio_data),
    Forall (fun b => 0 <= b < 256) bytes ->
    mode d = PS2_GPIO_MODE_READ ->
    cur_read_pos d = 0 -> cur_read_byte d = 0 ->
    map ps2_gpio_get_sda edges = read_frames bytes ->
    run_edges ps2_gpio_scl_interrupt_handler edges d =
      fold_left (fun d b => ps2_gpio_process_received_byte b d) bytes d.
Proof.
  induction bytes as [|b bytes IH]; intros edges d Hall Hmode Hpos Hbyte Hmap.
  - destruct edges; [reflexivity | discriminate].
  - unfold read_frames in Hmap. cbn [flat_map] in Hmap.
    apply map_eq_app in Hmap.
    destruct Hmap as (e1 & e2 & -> & Hfirst & Hrest).
    inversion Hall as [|? ? Hb Hall']; subst.
    unfold run_edges. rewrite fold_left_app.
    fold (run_edges ps2_gpio_scl_interrupt_handler e1 d).
    rewrite (read_frame_dispatch b e1 d Hb Hmode Hpos Hbyte Hfirst).
    destruct (process_received_byte_frame b d) as (Hm & Hp & Hy & _).
    cbn [fold_left].
    apply IH; try assumption; congruence.
Qed.

Lemma deliveries_in_order (bytes : list Z) :
  forall d : ps2_gpio_data,
    delivered
      (effects
         (fold_left (fun d b => ps2_gpio_process_received_byte b d) bytes d))
      = delivered (effects d) ++ bytes /\
    ((callback_isr d = None \/ callback_enabled d = false) ->
     data_queue
       (fold_left (fun d b => ps2_gpio_process_received_byte b d) bytes d)
       = data_queue d ++ repeat ByteParamAddr (length bytes) /\
     fifo_bytes
       (effects
          (fold_left (fun d b => ps2_gpio_process_received_byte b d) bytes d))
       = fifo_bytes (effects d) ++ bytes) /\
    (callback_isr d <> None -> callback_enabled d = true ->
     data_queue
       (fold_left (fun d b => ps2_gpio_process_received_byte b d) bytes d)
       = data_queue d /\
     callback_bytes
       (effects
          (fold_left (fun d b => ps2_gpio_process_received_byte b d) bytes d))
       = callback_bytes (effects d) ++ bytes) /\
    mode (fold_left (fun d b => ps2_gpio_process_received_byte b d) bytes d)
      = mode d /\
    cur_read_pos
      (fold_left (fun d b => ps2_gpio_process_received_byte b d) bytes d)
      = cur_read_pos d /\
    cur_read_byte
      (fold_left (fun d b => ps2_gpio_process_received_byte b d) bytes d)
      = cur_read_byte d.
Proof.
  induction bytes as [|b bytes IH]; intros d; cbn [fold_left].
  - rewrite !app_nil_r. repeat split; reflexivity.
  - destruct (IH (ps2_gpio_process_received_byte b d))
      as (Hdel & Hoff & Hon & Hm & Hp & Hy).
    destruct (process_received_byte_frame b d)
      as (Hm1 & Hp1 & Hy1 & Hcb & Hen).
    destruct (process_received_byte_delivers b d) as (Hd1 & _).
    rewrite Hcb, Hen in *.
    split; [rewrite Hdel, Hd1, <- app_assoc; reflexivity|].
    split.
    { intros Hoff'. destruct (Hoff Hoff') as (Hq & Hf). rewrite Hq, Hf.
      unfold ps2_gpio_process_received_byte.
      assert (Hcond : (match callback_isr d with
                       | Some _ => true
                       | None => false
                       end) && callback_enabled d = false).
      { destruct Hoff' as [-> | ->]; [reflexivity | apply andb_false_r]. }
      rewrite Hcond. unfold k_fifo_put.
      cbn [emit set_data_queue data_queue effects length repeat].
      rewrite fifo_bytes_app. cbn [fifo_bytes flat_map app].
      rewrite <- !app_assoc. split; reflexivity. }
    split.
    { intros Hreg Hena. destruct (Hon Hreg Hena) as (Hq & Hc).
      rewrite Hq, Hc. unfold ps2_gpio_process_received_byte.
      destruct (callback_isr d); [|congruence]. rewrite Hena.
      cbn [andb emit data_queue effects].
      rewrite callback_bytes_app. cbn [callback_bytes flat_map app].
      rewrite <- app_assoc. split; reflexivity. }
    repeat split; congruence.
Qed.

(** X9.  The frames of several bytes arriving back to back in Read mode,
    from a clear read state, hand over exactly those bytes in their
    order.  When no callback is registered and enabled, [k_fifo_put] is
    called once per byte, in order, each time with the address of the
    parameter holding the byte, and the queue grows by one such entry per
    byte behind what it held; when one is, the callback is invoked once
    per byte, in order, and the queue is untouched.  Afterwards the
    driver is in Read mode with a clear read state again. *)
Theorem read_frames_delivered_in_order (bytes : list Z)
    (edges : list gpio_env) (d : ps2_gpio_data)
    (Hall : Forall (fun b => 0 <= b < 256) bytes)
    (Hmode : mode d = PS2_GPIO_MODE_READ)
    (Hpos : cur_read_pos d = 0)
    (Hbyte : cur_read_byte d = 0)
    (Hframes : map ps2_gpio_get_sda edges = read_frames bytes) :
  delivered (effects (run_edges ps2_gpio_scl_interrupt_handler edges d)) =
    delivered (effects d) ++ bytes /\
  ((callback_isr d = None \/ callback_enabled d = false) ->
   data_queue (run_edges ps2_gpio_scl_interrupt_handler edges d) =
     data_queue d ++ repeat ByteParamAddr (length bytes) /\
   fifo_bytes
     (effects (run_edges ps2_gpio_scl_interrupt_handler edges d)) =
     fifo_bytes (effects d) ++ bytes) /\
  (callback_isr d <> None -> callback_enabled d = true ->
   data_queue (run_edges ps2_gpio_scl_interrupt_handler edges d) =
     data_queue d /\
   callback_bytes
     (effects (run_edges ps2_gpio_scl_interrupt_handler edges d)) =
     callback_bytes (effects d) ++ bytes) /\
  mode (run_edges ps2_gpio_scl_interrupt_handler edges d) =
    PS2_GPIO_MODE_READ /\
  cur_read_pos (run_edges ps2_gpio_scl_interrupt_handler edges d) = 0 /\
  cur_read_byte (run_edges ps2_gpio_scl_interrupt_handler edges d) = 0.
Proof.
  rewrite (read_frames_dispatch bytes edges d Hall Hmode Hpos Hbyte Hframes).
  destruct (deliveries_in_order bytes d) as (Hdel & Hoff & Hon & Hm & Hp & Hy).
  split; [exact Hdel|]. split; [exact Hoff|]. split; [exact Hon|].
  repeat split; congruence.
Qed.

Lemma read_frames_delivered_in_order_witness :
  fifo_bytes
    (effects (run_edges ps2_gpio_scl_interrupt_handler
                (map (env_sda cfg_ok) (read_frames [0xaa; 0x00; 0xfa]))
                ps2_gpio_data_init)) = [0xaa; 0x00; 0xfa] /\
  length
    (data_queue (run_edges ps2_gpio_scl_interrupt_handler
                   (map (env_sda cfg_ok) (read_frames [0xaa; 0x00; 0xfa]))
                   ps2_gpio_data_init)) = 3%nat.
Proof.
  assert (Hall : Forall (fun b => 0 <= b < 256) [0xaa; 0x00; 0xfa])
    by (repeat constructor; lia).
  pose proof (read_frames_delivered_in_order [0xaa; 0x00; 0xfa]
                (map (env_sda cfg_ok) (read_frames [0xaa; 0x00; 0xfa]))
                ps2_gpio_data_init Hall eq_refl eq_refl eq_refl eq_refl)
    as (_ & Hoff & _).
  destruct (Hoff (or_introl eq_refl)) as (Hq & Hf).
  split; [exact Hf | rewrite Hq; reflexivity].
Defined.

(** ** Recovery after a framing error *)

(** An abort whose resend could be initiated leaves the state of the
    initiated write: it had already cleared the read state. *)
Lemma abort_read_ok (env : gpio_env) (d : ps2_gpio_data) :
  configure_ok env ->
  ps2_gpio_abort_read env d = async_at_scl_input PS2_CMD_RESEND d.
Proof.
  intros Hok. unfold ps2_gpio_abort_read, ps2_gpio_send_cmd_resend.
  rewrite (write_byte_async_ok env PS2_CMD_RESEND d Hok). cbn [snd].
  rewrite async_at_scl_input_effects. destruct d.
  cbv [emit_all set_cur_write_pos set_cur_read_pos set_cur_read_byte
       set_cur_write_status set_mode set_write_buffer set_write_lock
       callback_isr callback_enabled data_queue mode cur_read_byte
       cur_read_pos write_buffer cur_write_pos cur_write_status write_lock
       effects PS2_GPIO_POS_START].
  reflexivity.
Qed.


(** X10.  After a validation failure of the receive handler whose resend
    could be initiated (the line configurations succeed), ten further
    clock edges put the frame of the resend command 0xfe out and the
    acknowledgment edge ends the transaction: the driver is back in Read
    mode with a clear read state, the status is Success if the data line
    read 0 on that edge and Failure otherwise, the semaphore was given
    exactly once, and no byte was delivered. *)
Theorem read_failure_recovers_after_resend (env e_ack : gpio_env)
    (edges : list gpio_env) (d : ps2_gpio_data)
    (Hmode : mode d = PS2_GPIO_MODE_READ)
    (Hfail :
      (cur_read_pos d = PS2_GPIO_POS_START /\ ps2_gpio_get_sda env <> 0) \/
      (cur_read_pos d = PS2_GPIO_POS_PARITY /\
       ps2_gpio_check_parity (cur_read_byte d) (ps2_gpio_get_sda env)
         = false) \/
      (cur_read_pos d = PS2_GPIO_POS_STOP /\ ps2_gpio_get_sda env <> 1))
    (Hok : configure_ok env)
    (Hlen : length edges = 10%nat) :
  mode (run_edges ps2_gpio_scl_interrupt_handler
          (env :: edges ++ [e_ack]) d) = PS2_GPIO_MODE_READ /\
  cur_read_pos (run_edges ps2_gpio_scl_interrupt_handler
                  (env :: edges ++ [e_ack]) d) = 0 /\
  cur_read_byte (run_edges ps2_gpio_scl_interrupt_handler
                   (env :: edges ++ [e_ack]) d) = 0 /\
  cur_write_status (run_edges ps2_gpio_scl_interrupt_handler
                      (env :: edges ++ [e_ack]) d) =
    (if ps2_gpio_get_sda e_ack =? 0
     then PS2_GPIO_WRITE_STATUS_SUCCESS
     else PS2_GPIO_WRITE_STATUS_FAILURE) /\
  sem_gives (effects (run_edges ps2_gpio_scl_interrupt_handler
                        (env :: edges ++ [e_ack]) d)) =
    S (sem_gives (effects d)) /\
  write_lock (run_edges ps2_gpio_scl_interrupt_handler
                (env :: edges ++ [e_ack]) d) =
    k_sem_give (snd (k_sem_take_no_wait (write_lock d))) /\
  levels_set SCL
    (effects (run_edges ps2_gpio_scl_interrupt_handler
                (env :: edges ++ [e_ack]) d)) =
    levels_set SCL (effects d) ++ write_frame_levels 0xfe /\
  delivered (effects (run_edges ps2_gpio_scl_interrupt_handler
                        (env :: edges ++ [e_ack]) d)) =
    delivered (effects d).
Proof.
  assert (Hb : 0 <= 0xfe < 256) by lia.
  unfold run_edges. cbn [fold_left]. rewrite fold_left_app. cbn [fold_left].
  rewrite (dispatch_read env d Hmode), (read_edge_failure env d Hfail).
  rewrite (abort_read_ok env d Hok). unfold PS2_CMD_RESEND.
  fold (run_edges ps2_gpio_scl_interrupt_handler edges
          (async_at_scl_input 0xfe d)).
  rewrite (write_ten_edges_after_async env 0xfe edges d Hb Hlen).
  rewrite write_edge_ack; [| reflexivity | reflexivity].
  unfold ps2_gpio_scl_interrupt_handler_write_check_ack.
  rewrite async_at_scl_input_effects.
  destruct (ps2_gpio_get_sda e_ack =? 0);
    cbn [emit emit_all set_write_lock set_cur_write_pos set_write_buffer
         set_mode set_cur_write_status set_cur_read_pos set_cur_read_byte
         callback_isr callback_enabled data_queue mode cur_read_byte
         cur_read_pos write_buffer cur_write_pos cur_write_status write_lock
         effects];
    rewrite !sem_gives_app, !levels_set_app, !delivered_app,
      levels_set_map_same;
    cbn [sem_gives filter length levels_set delivered flat_map app map];
    rewrite ?app_nil_r, ?Nat.add_0_r, ?Nat.add_1_r;
    repeat split; reflexivity.
Qed.

Lemma read_failure_recovers_after_resend_witness :
  mode (run_edges ps2_gpio_scl_interrupt_handler
          (env_sda cfg_ok 1 :: repeat (env_sda cfg_ok 1) 10
             ++ [env_sda cfg_ok 0]) ps2_gpio_data_init) =
    PS2_GPIO_MODE_READ /\
  cur_write_status
    (run_edges ps2_gpio_scl_interrupt_handler
       (env_sda cfg_ok 1 :: repeat (env_sda cfg_ok 1) 10
          ++ [env_sda cfg_ok 0]) ps2_gpio_data_init) =
    PS2_GPIO_WRITE_STATUS_SUCCESS.
Proof.
  assert (Hfail :
    (cur_read_pos ps2_gpio_data_init = PS2_GPIO_POS_START /\
     ps2_gpio_get_sda (env_sda cfg_ok 1) <> 0) \/
    (cur_read_pos ps2_gpio_data_init = PS2_GPIO_POS_PARITY /\
     ps2_gpio_check_parity (cur_read_byte ps2_gpio_data_init)
       (ps2_gpio_get_sda (env_sda cfg_ok 1)) = false) \/
    (cur_read_pos ps2_gpio_data_init = PS2_GPIO_POS_STOP /\
     ps2_gpio_get_sda (env_sda cfg_ok 1) <> 1)).
  { left. split; [reflexivity | discriminate]. }
  assert (Hok : configure_ok (env_sda cfg_ok 1))
    by (repeat split; reflexivity).
  pose proof (read_failure_recovers_after_resend (env_sda cfg_ok 1)
                (env_sda cfg_ok 0) (repeat (env_sda cfg_ok 1) 10)
                ps2_gpio_data_init eq_refl Hfail Hok eq_refl)
    as (Hmode & _ & _ & Hst & _).
  split; [exact Hmode | exact Hst].
Defined.

(** ** Polling read and callback *)

(** No clock edge changes the callback or its enable flag, and while a
    callback is registered and enabled no clock edge touches the queue. *)
Lemma interrupt_handler_callback_route (env : gpio_env) (d : ps2_gpio_data) :
  callback_isr (ps2_gpio_scl_interrupt_handler env d) = callback_isr d /\
  callback_enabled (ps2_gpio_scl_interrupt_handler env d) =
    callback_enabled d /\
  (callback_isr d <> None -> callback_enabled d = true ->
   data_queue (ps2_gpio_scl_interrupt_handler env d) = data_queue d).
Proof.
  assert (Habort :
    callback_isr (ps2_gpio_abort_read env d) = callback_isr d /\
    callback_enabled (ps2_gpio_abort_read env d) = callback_enabled d /\
    data_queue (ps2_gpio_abort_read env d) = data_queue d).
  { unfold ps2_gpio_abort_read, ps2_gpio_send_cmd_resend.
    cbn [set_cur_read_byte set_cur_read_pos callback_isr callback_enabled
         data_queue].
    destruct (write_byte_async_frame env PS2_CMD_RESEND d)
      as (_ & _ & Hq & Hcb & Hen).
    auto. }
  destruct Habort as (Ha1 & Ha2 & Ha3).
  unfold ps2_gpio_scl_interrupt_handler.
  destruct (mode_eqb (mode d) PS2_GPIO_MODE_READ).
  - unfold ps2_gpio_scl_interrupt_handler_read,
      ps2_gpio_process_received_byte, k_fifo_put.
    destruct (callback_isr d) as [f|] eqn:Ecb;
      destruct (callback_enabled d) eqn:Een; cbn [andb];
      repeat match goal with
             | |- context [if ?c then _ else _] => destruct c
             end;
      cbn [emit set_cur_read_byte set_cur_read_pos set_data_queue
           callback_isr callback_enabled data_queue];
      rewrite ?Ha1, ?Ha2, ?Ha3, ?Ecb, ?Een;
      repeat split; try reflexivity; intros; congruence.
  - destruct (interrupt_handler_write_frame env d) as (_ & _ & _ & Hq).
    unfold ps2_gpio_scl_interrupt_handler_write,
      ps2_gpio_scl_interrupt_handler_write_check_ack,
      ps2_gpio_scl_interrupt_handler_write_send_bit, ps2_gpio_set_sda,
      call_gpio_pin_configure in *.
    repeat match goal with
           | |- context [if ?c then _ else _] => destruct c
           end;
      cbn [snd emit set_write_lock set_write_buffer set_mode
           set_cur_write_pos set_cur_write_status callback_isr
           callback_enabled data_queue];
      repeat split; reflexivity.
Qed.

Lemma k_fifo_get_timeout_callback (edges : list gpio_env) :
  forall d : ps2_gpio_data,
    callback_isr d <> None -> callback_enabled d = true ->
    data_queue d = [] ->
    k_fifo_get_timeout edges d =
      (None, run_edges ps2_gpio_scl_interrupt_handler edges d).
Proof.
  induction edges as [|env edges IH]; intros d Hcb Hen Hq;
    cbn [k_fifo_get_timeout]; rewrite Hq; [reflexivity|].
  destruct (interrupt_handler_callback_route env d) as (H1 & H2 & H3).
  unfold run_edges. cbn [fold_left].
  apply IH; [rewrite H1; exact Hcb | rewrite H2; exact Hen
            | rewrite (H3 Hcb Hen); exact Hq].
Qed.

(** X11.  Once a callback has been registered with [ps2_gpio_configure],
    the polling read gets nothing: whatever the queue held before and
    whatever clock edges arrive while it waits, [ps2_gpio_read] returns
    [-ETIMEDOUT] and leaves the caller's value as it was, because the
    registration emptied the queue and every byte received from then on
    goes to the callback. *)
Theorem read_times_out_after_configure (f : nat) (stale : Z)
    (edges : list gpio_env) (v : Z) (d : ps2_gpio_data) :
  fst (ps2_gpio_configure (Some f) d) = 0 /\
  fst (fst (ps2_gpio_read stale edges v
               (snd (ps2_gpio_configure (Some f) d)))) =
    - ETIMEDOUT /\
  snd (fst (ps2_gpio_read stale edges v
               (snd (ps2_gpio_configure (Some f) d)))) =
    v /\
  data_queue
    (snd (ps2_gpio_read stale edges v
               (snd (ps2_gpio_configure (Some f) d)))) = [].
Proof.
  split; [reflexivity|].
  assert (Hcb : callback_isr (snd (ps2_gpio_configure (Some f) d)) <> None)
    by discriminate.
  assert (Hen : callback_enabled (snd (ps2_gpio_configure (Some f) d)) = true)
    by reflexivity.
  assert (Hq : data_queue (snd (ps2_gpio_configure (Some f) d)) = []).
  { unfold ps2_gpio_configure, ps2_gpio_enable_callback,
      ps2_gpio_empty_data_queue.
    cbn [snd set_data_queue set_callback_enabled set_callback_isr
         data_queue].
    apply empty_data_queue_loop_nil. }
  unfold ps2_gpio_read.
  rewrite (k_fifo_get_timeout_callback edges _ Hcb Hen Hq).
  cbn [fst snd]. split; [reflexivity|]. split; [reflexivity|].
  clear - Hcb Hen Hq.
  generalize dependent (snd (ps2_gpio_configure (Some f) d)).
  induction edges as [|env edges IH]; intros d0 Hcb Hen Hq; [exact Hq|].
  destruct (interrupt_handler_callback_route env d0) as (H1 & H2 & H3).
  unfold run_edges in *. cbn [fold_left].
  apply IH; [rewrite H1; exact Hcb | rewrite H2; exact Hen
            | rewrite (H3 Hcb Hen); exact Hq].
Qed.

(** ** Initialisation *)

(** X12.  [ps2_gpio_init] succeeds exactly when both ports are found and
    the four GPIO calls succeed.  On success the two lines were
    configured as inputs, a level 1 was set through [ps2_gpio_set_sda]
    and through [ps2_gpio_set_scl], the queue is empty and the semaphore
    has count 0 and limit 1, so the first write finds it taken.  On
    failure neither the queue nor the semaphore was initialised and no
    level was set; a missing clock port is reported as [-EINVAL] before
    any GPIO call is made. *)
Theorem init_outcome (ienv : init_env) (d : ps2_gpio_data) :
  (fst (ps2_gpio_init ienv d) = 0 <->
   device_get_binding ienv SCL = true /\
   gpio_pin_configure (init_gpio ienv) SCL GPIO_INPUT = 0 /\
   gpio_pin_interrupt_configure ienv = 0 /\
   gpio_add_callback ienv = 0 /\
   device_get_binding ienv SDA = true /\
   gpio_pin_configure (init_gpio ienv) SDA GPIO_INPUT = 0) /\
  (fst (ps2_gpio_init ienv d) = 0 ->
   write_lock (snd (ps2_gpio_init ienv d)) = k_sem_init 0 1 /\
   fst (k_sem_take_no_wait (write_lock (snd (ps2_gpio_init ienv d)))) =
     - EBUSY /\
   data_queue (snd (ps2_gpio_init ienv d)) = [] /\
   effects (snd (ps2_gpio_init ienv d)) =
     effects d ++
       [GpioPinConfigure SCL GPIO_INPUT; GpioPinConfigure SDA GPIO_INPUT;
        GpioPinSet SCL 1; GpioPinSet SDA 1]) /\
  (fst (ps2_gpio_init ienv d) <> 0 ->
   write_lock (snd (ps2_gpio_init ienv d)) = write_lock d /\
   data_queue (snd (ps2_gpio_init ienv d)) = data_queue d /\
   levels_set SCL (effects (snd (ps2_gpio_init ienv d))) =
     levels_set SCL (effects d) /\
   levels_set SDA (effects (snd (ps2_gpio_init ienv d))) =
     levels_set SDA (effects d)) /\
  (device_get_binding ienv SCL = false ->
   ps2_gpio_init ienv d = (- EINVAL, d)).
Proof.
  unfold ps2_gpio_init, ps2_gpio_configure_scl_pin,
    ps2_gpio_configure_sda_pin, call_gpio_pin_configure, ps2_gpio_set_sda,
    ps2_gpio_set_scl, EINVAL.
  destruct (device_get_binding ienv SCL) eqn:Bscl; cbn [negb];
    [|cbn [fst snd Z.eqb Z.opp negb];
      repeat split; intros; try reflexivity; try discriminate;
      try congruence; intuition congruence].
  destruct (Z.eqb_spec (gpio_pin_configure (init_gpio ienv) SCL GPIO_INPUT)
              0) as [E1|E1]; cbn [negb].
  2:{ cbn [fst snd]. rewrite (proj2 (Z.eqb_neq _ _) E1). cbn [negb fst snd].
      cbn [emit write_lock data_queue effects].
      rewrite !levels_set_app. cbn [levels_set flat_map app].
      rewrite !app_nil_r.
      repeat split; intros; try reflexivity; try discriminate;
        try congruence; intuition congruence. }
  destruct (Z.eqb_spec (gpio_pin_interrupt_configure ienv) 0) as [E2|E2];
    cbn [negb].
  2:{ cbn [fst snd]. rewrite (proj2 (Z.eqb_neq _ _) E2). cbn [negb fst snd].
      cbn [emit write_lock data_queue effects].
      rewrite !levels_set_app. cbn [levels_set flat_map app].
      rewrite !app_nil_r.
      repeat split; intros; try reflexivity; try discriminate;
        try congruence; intuition congruence. }
  destruct (Z.eqb_spec (gpio_add_callback ienv) 0) as [E3|E3]; cbn [negb].
  2:{ cbn [fst snd]. rewrite (proj2 (Z.eqb_neq _ _) E3). cbn [negb fst snd].
      cbn [emit write_lock data_queue effects].
      rewrite !levels_set_app. cbn [levels_set flat_map app].
      rewrite !app_nil_r.
      repeat split; intros; try reflexivity; try discriminate;
        try congruence; intuition congruence. }
  cbn [Z.eqb negb].
  destruct (device_get_binding ienv SDA) eqn:Bsda; cbn [negb].
  2:{ cbn [fst snd Z.eqb Z.opp negb].
      cbn [emit write_lock data_queue effects].
      rewrite !levels_set_app. cbn [levels_set flat_map app].
      rewrite !app_nil_r.
      repeat split; intros; try reflexivity; try discriminate;
        try congruence; intuition congruence. }
  destruct (Z.eqb_spec (gpio_pin_configure (init_gpio ienv) SDA GPIO_INPUT)
              0) as [E4|E4]; cbn [negb].
  2:{ cbn [fst snd]. rewrite (proj2 (Z.eqb_neq _ _) E4). cbn [negb fst snd].
      cbn [emit write_lock data_queue effects].
      rewrite !levels_set_app. cbn [levels_set flat_map app].
      rewrite !app_nil_r.
      repeat split; intros; try reflexivity; try discriminate;
        try congruence; intuition congruence. }
  cbn [Z.eqb negb fst snd].
  cbn [emit set_data_queue set_write_lock write_lock data_queue effects].
  rewrite <- !app_assoc.
  repeat split; intros; try reflexivity; try discriminate; try congruence.
Qed.

Lemma init_outcome_witness :
  fst (ps2_gpio_init init_env_ok ps2_gpio_data_static) = 0 /\
  write_lock (snd (ps2_gpio_init init_env_ok ps2_gpio_data_static)) =
    k_sem_init 0 1 /\
  fst (ps2_gpio_init (mk_init_env (fun _ => false) (env_sda cfg_ok 1) 0 0)
         ps2_gpio_data_static) = - EINVAL.
Proof.
  pose proof (init_outcome init_env_ok ps2_gpio_data_static)
    as (Hiff & Hok & _ & _).
  assert (H0 : fst (ps2_gpio_init init_env_ok ps2_gpio_data_static) = 0)
    by (apply Hiff; repeat split; reflexivity).
  split; [exact H0|]. split; [exact (proj1 (Hok H0))|].
  pose proof (init_outcome
                (mk_init_env (fun _ => false) (env_sda cfg_ok 1) 0 0)
                ps2_gpio_data_static) as (_ & _ & _ & Hnull).
  rewrite (Hnull eq_refl). reflexivity.
Defined.

(** ** A write reported as failed that goes out all the same *)

(** X13.  When only the last line configuration of an asynchronous write
    fails (the clock line back to input), the error is returned, and the
    blocking write returns it at once without waiting for any edge; but
    the transaction has been started all the same: the next ten clock
    edges put the frame of the byte out, and the acknowledgment edge
    sets the status, returns the driver to Read mode and gives the
    semaphore once. *)
Theorem write_last_configure_error_still_sends (env e_ack : gpio_env)
    (b : Z) (edges : list gpio_env) (d : ps2_gpio_data)
    (Hb : 0 <= b < 256)
    (E1 : gpio_pin_configure env SCL GPIO_OUTPUT_LOW = 0)
    (E2 : gpio_pin_configure env SDA GPIO_OUTPUT_LOW = 0)
    (E3 : gpio_pin_configure env SCL GPIO_INPUT <> 0)
    (Hlen : length edges = 10%nat) :
  fst (ps2_gpio_write_byte_async env b d) =
    gpio_pin_configure env SCL GPIO_INPUT /\
  ps2_gpio_write env (edges ++ [e_ack]) b d =
    ps2_gpio_write_byte_async env b d /\
  mode (snd (ps2_gpio_write_byte_async env b d)) = PS2_GPIO_MODE_WRITE /\
  cur_write_status (snd (ps2_gpio_write_byte_async env b d)) =
    PS2_GPIO_WRITE_STATUS_ACTIVE /\
  levels_set SCL
    (effects (run_edges ps2_gpio_scl_interrupt_handler (edges ++ [e_ack])
                (snd (ps2_gpio_write_byte_async env b d)))) =
    levels_set SCL (effects d) ++ write_frame_levels b /\
  mode (run_edges ps2_gpio_scl_interrupt_handler (edges ++ [e_ack])
          (snd (ps2_gpio_write_byte_async env b d))) = PS2_GPIO_MODE_READ /\
  cur_write_status
    (run_edges ps2_gpio_scl_interrupt_handler (edges ++ [e_ack])
       (snd (ps2_gpio_write_byte_async env b d))) =
    (if ps2_gpio_get_sda e_ack =? 0
     then PS2_GPIO_WRITE_STATUS_SUCCESS
     else PS2_GPIO_WRITE_STATUS_FAILURE) /\
  sem_gives
    (effects (run_edges ps2_gpio_scl_interrupt_handler (edges ++ [e_ack])
                (snd (ps2_gpio_write_byte_async env b d)))) =
    S (sem_gives (effects d)).
Proof.
  assert (Hasync : ps2_gpio_write_byte_async env b d =
                   (gpio_pin_configure env SCL GPIO_INPUT,
                    async_at_scl_input b d)).
  { rewrite write_byte_async_stages, E1, E2. reflexivity. }
  unfold ps2_gpio_write, ps2_gpio_write_byte_blocking.
  rewrite Hasync. cbn [fst snd].
  rewrite (proj2 (Z.eqb_neq _ _) E3). cbn [negb].
  split; [reflexivity|]. split; [reflexivity|].
  split; [reflexivity|]. split; [reflexivity|].
  unfold run_edges. rewrite fold_left_app. cbn [fold_left].
  fold (run_edges ps2_gpio_scl_interrupt_handler edges
          (async_at_scl_input b d)).
  rewrite (write_ten_edges_after_async env b edges d Hb Hlen).
  rewrite write_edge_ack; [| reflexivity | reflexivity].
  unfold ps2_gpio_scl_interrupt_handler_write_check_ack.
  rewrite async_at_scl_input_effects.
  destruct (ps2_gpio_get_sda e_ack =? 0);
    cbn [emit emit_all set_write_lock set_cur_write_pos set_write_buffer
         set_mode set_cur_write_status set_cur_read_pos set_cur_read_byte
         callback_isr callback_enabled data_queue mode cur_read_byte
         cur_read_pos write_buffer cur_write_pos cur_write_status write_lock
         effects];
    rewrite !sem_gives_app, !levels_set_app, levels_set_map_same;
    cbn [sem_gives filter length levels_set flat_map app map];
    rewrite ?app_nil_r, ?Nat.add_0_r, ?Nat.add_1_r;
    repeat split; reflexivity.
Qed.

Lemma write_last_configure_error_still_sends_witness :
  fst (ps2_gpio_write (env_sda (cfg_fail_at SCL GPIO_INPUT (-5)) 1)
         (repeat (env_sda cfg_ok 1) 10 ++ [env_sda cfg_ok 0]) 0xf4
         ps2_gpio_data_init) = -5 /\
  levels_set SCL
    (effects (run_edges ps2_gpio_scl_interrupt_handler
                (repeat (env_sda cfg_ok 1) 10 ++ [env_sda cfg_ok 0])
                (snd (ps2_gpio_write_byte_async
                        (env_sda (cfg_fail_at SCL GPIO_INPUT (-5)) 1) 0xf4
                        ps2_gpio_data_init)))) =
    [0; 0; 1; 0; 1; 1; 1; 1; 0; 1].
Proof.
  assert (Hb : 0 <= 0xf4 < 256) by lia.
  assert (E3 : gpio_pin_configure
                 (env_sda (cfg_fail_at SCL GPIO_INPUT (-5)) 1) SCL
                 GPIO_INPUT <> 0) by discriminate.
  pose proof (write_last_configure_error_still_sends
                (env_sda (cfg_fail_at SCL GPIO_INPUT (-5)) 1)
                (env_sda cfg_ok 0) 0xf4 (repeat (env_sda cfg_ok 1) 10)
                ps2_gpio_data_init Hb eq_refl eq_refl E3 eq_refl)
    as (Hret & Hblk & _ & _ & Hlev & _).
  split; [rewrite Hblk; exact Hret | exact Hlev].
Defined.
